(** * Copulas: a shallow embedding of [copula.py]

    The module [copula.py] fits the Archimedean copula families Clayton,
    Frank and Gumbel to paired observations, evaluates their distribution
    functions and selects a family by comparing tail profiles.

    The embedding follows the Python text function by function.

    - Python's exceptions are the values of [exn]; a computation that may
      raise returns a [result].
    - Numbers are the values of a type [F] with the operations of the class
      [Numeric].  Two instances are given after the model: IEEE binary64
      (primitive floats, which is what CPython and numpy compute with) and
      exact rationals.
    - numpy's transcendental functions and the three scipy routines the
      module calls ([kendalltau], [fmin], [quad]) are not part of the
      repository; they are the fields of the classes [NumPy] and [SciPy].
    - A numpy array and a Python list of numbers are both a [list F]. *)

From Stdlib Require Import String ZArith List Bool Lia Arith.
From Stdlib Require Import QArith Floats.
Import ListNotations.

Set Implicit Arguments.
Set Warnings "-inexact-float".

(** ** Exceptions and results *)

Inductive exn : Type :=
| ValueError (msg : string)
| IndexError
| ZeroDivisionError
| TypeError
| AttributeError
| Exception_ (msg : string).

Inductive result (A : Type) : Type :=
| Ok (a : A)
| Raise (e : exn).

Arguments Ok {A} a.
Arguments Raise {A} e.

Definition bind {A B : Type} (r : result A) (k : A -> result B) : result B :=
  match r with
  | Ok a => k a
  | Raise e => Raise e
  end.

Declare Scope py_scope.
Delimit Scope py_scope with py.

Notation "x <- r ;; k" := (bind r (fun x => k))
  (at level 61, r at next level, right associativity) : py_scope.
Notation "' p <- r ;; k" := (bind r (fun x => let p := x in k))
  (at level 61, p pattern, r at next level, right associativity) : py_scope.

(** ** The numeric interface *)

(** The arithmetic and comparisons the module applies to numbers.
    [of_int] is the conversion of an integer literal or count to a number;
    [square x] is [x ** 2] and [np.power(x, 2)]. *)
Class Numeric (F : Type) : Type := {
  of_int : Z -> F;
  add : F -> F -> F;
  sub : F -> F -> F;
  mul : F -> F -> F;
  div : F -> F -> F;
  neg : F -> F;
  square : F -> F;
  ltb : F -> F -> bool;
  leb : F -> F -> bool;
  eqb : F -> F -> bool
}.

(** numpy's elementary functions, its sum of an array, and
    [sys.float_info.epsilon]. *)
Class NumPy (F : Type) : Type := {
  np_exp : F -> F;
  np_log : F -> F;
  np_power : F -> F -> F;
  np_sum : list F -> F;
  float_epsilon : F
}.

(** The scipy routines: [kendalltau x y] is [scipy.stats.kendalltau(x, y)[0]],
    [fmin f x0] is [scipy.optimize.fmin(f, x0, disp=False)[0]] and
    [quad f a b] is the pair that [scipy.integrate.quad(f, a, b)] starts
    with (the integral and the error estimate). *)
Class SciPy (F : Type) : Type := {
  kendalltau : list F -> list F -> result F;
  fmin : (F -> F) -> F -> F;
  quad : (F -> F) -> F -> F -> F * F
}.

Infix "+" := add : py_scope.
Infix "-" := sub : py_scope.
Infix "*" := mul : py_scope.
Infix "/" := div : py_scope.
Notation "- x" := (neg x) : py_scope.
Infix "<?" := ltb : py_scope.
Infix "<=?" := leb : py_scope.
Infix "=?" := eqb : py_scope.
Notation "# z" := (of_int z%Z) (at level 5, z at level 0, format "# z") : py_scope.

Open Scope py_scope.

(** ** numpy and builtin helpers *)

Section Helpers.

Context {F : Type} {Num : Numeric F}.

(** The value of [x != x], which holds of a NaN only. *)
Definition isnan (x : F) : bool := negb (x =? x).

(** The builtin [max(x, y)]: the first argument unless the second is
    greater. *)
Definition py_max (x y : F) : F := if x <? y then y else x.

Fixpoint zip_with {A B C : Type} (f : A -> B -> C) (xs : list A) (ys : list B)
  : list C :=
  match xs, ys with
  | x :: xs', y :: ys' => f x y :: zip_with f xs' ys'
  | _, _ => []
  end.

(** A binary ufunc on two one-dimensional arrays: elementwise on equal
    lengths, an array of length one is stretched, any other pair of
    lengths is refused. *)
Definition np_broadcast {A B C : Type} (f : A -> B -> C)
    (xs : list A) (ys : list B) : result (list C) :=
  if (length xs =? length ys)%nat then Ok (zip_with f xs ys)
  else match xs, ys with
       | [x], _ => Ok (map (f x) ys)
       | _, [y] => Ok (map (fun x => f x y) xs)
       | _, _ => Raise (ValueError "operands could not be broadcast together")
       end.

Definition np_multiply : list F -> list F -> result (list F) := np_broadcast mul.
Definition np_divide : list F -> list F -> result (list F) := np_broadcast div.
Definition np_add : list F -> list F -> result (list F) := np_broadcast add.
Definition np_subtract : list F -> list F -> result (list F) := np_broadcast sub.
Definition np_logical_and : list bool -> list bool -> result (list bool) :=
  np_broadcast andb.

(** The builtin [sum] of an array of booleans: the number that are true. *)
Definition count_true (bs : list bool) : nat := length (filter (fun b => b) bs).

(** [np.argmax] on a one-dimensional array: the position of the first
    entry that no later entry exceeds, a NaN counting as the greatest
    value.  [argmax_from mp ind i xs] scans [xs], whose first entry has
    index [i], with the current maximum [mp] found at [ind]. *)
Fixpoint argmax_from (mp : F) (ind i : nat) (xs : list F) : nat :=
  match xs with
  | [] => ind
  | x :: xs' =>
      if negb (x <=? mp)
      then if isnan x then i else argmax_from x i (S i) xs'
      else argmax_from mp ind (S i) xs'
  end.

Definition np_argmax (xs : list F) : result nat :=
  match xs with
  | [] => Raise (ValueError "attempt to get argmax of an empty sequence")
  | x :: xs' => if isnan x then Ok 0%nat else Ok (argmax_from x 0 1 xs')
  end.

(** Indexing a list: [xs[i]] for [0 <= i]. *)
Definition getitem {A : Type} (xs : list A) (i : nat) : result A :=
  match nth_error xs i with
  | Some x => Ok x
  | None => Raise IndexError
  end.

(** [np.linspace(start, stop, num)] for [start <> stop]: the points
    [k * step + start] with [step = (stop - start) / (num - 1)], the last
    point being [stop] itself. *)
Definition np_linspace (start stop : F) (num : nat) : list F :=
  match num with
  | O => []
  | S O => [start]
  | S n =>
      let step := (stop - start) / of_int (Z.of_nat n) in
      map (fun k => of_int (Z.of_nat k) * step + start) (seq 0 n) ++ [stop]
  end.

(** Every entry is below or equal to itself and to every later entry. *)
Fixpoint ascending (xs : list F) : bool :=
  match xs with
  | [] => true
  | x :: xs' => (x <=? x) && forallb (fun y => x <=? y) xs' && ascending xs'
  end.

End Helpers.

(** ** The class [Copula] *)

Section CopulaModel.

Context {F : Type} {Num : Numeric F} {NP : NumPy F} {SP : SciPy F}.

(** The signature shared by the [cdf] and [du] closures. *)
Definition evaluator : Type := list F -> list F -> F -> result (list F).

(** The attributes of an instance.  [theta] and [cname] are [None] by
    default; [cdf] and [derivative] exist only once they are assigned. *)
Record Copula : Type := {
  U : list F;
  V : list F;
  theta : option F;
  cname : option string;
  tau : F;
  cdf : option evaluator;
  derivative : option evaluator
}.

(** [str(cname)] and the truth value of [cname]. *)
Definition str (cname : option string) : string :=
  match cname with
  | Some s => s
  | None => "None"
  end.

Definition truthy (cname : option string) : bool :=
  match cname with
  | Some s => negb (String.eqb s "")
  | None => false
  end.

Definition is_name (cname : option string) (s : string) : bool :=
  match cname with
  | Some c => String.eqb c s
  | None => false
  end.

(** [_frank_help(self, alpha)].  The quadrature is evaluated and bound to
    [debye_value], as in the source. *)
Definition _frank_help (tau : F) (alpha : F) : F :=
  let debye := fun t => t / (np_exp t - #1) in
  let debye_value := fst (quad debye float_epsilon alpha) / alpha in
  let diff := (#1 - tau) / #4 - (debye (- alpha) - #1) / alpha in
  square diff.

(** [_get_parameter(self)]: the value of [self.theta] after the call, given
    its value before. *)
Definition _get_parameter (cname : option string) (tau : F) (theta : option F)
  : option F :=
  if is_name cname "clayton" then
    if tau =? #1 then Some #10000
    else Some (#2 * tau / (#1 - tau))
  else if is_name cname "frank" then
    Some (- fmin (_frank_help tau) #(-5))
  else if is_name cname "gumbel" then
    if tau =? #1 then Some #10000
    else Some (#1 / (#1 - tau))
  else theta.

(** The list comprehension of the Clayton branch: entry [i] reads [V[i]]
    only when [U[i] > 0]. *)
Fixpoint clayton_values (theta : F) (U V : list F) : result (list F) :=
  match U with
  | [] => Ok []
  | u :: U' =>
      x <- (if #0 <? u
            then v <- getitem V 0 ;;
                 Ok (np_power (np_power u (- theta) + np_power v (- theta) - #1)
                              (#(-1) / theta))
            else Ok #0) ;;
      xs <- clayton_values theta U' (tl V) ;;
      Ok (x :: xs)
  end.

Definition clayton_cdf : evaluator := fun U V theta =>
  if theta <? #0 then Raise (ValueError "Theta cannot be than 0 for clayton")
  else if theta =? #0 then np_multiply U V
  else
    cdf <- clayton_values theta U V ;;
    Ok (map (fun x => py_max x #0) cdf).

Definition frank_cdf : evaluator := fun U V theta =>
  if theta <? #0 then Raise (ValueError "Theta cannot be less than 0 for Frank")
  else if theta =? #0 then np_multiply U V
  else
    num <- np_multiply (map (fun u => np_exp (- theta * u) - #1) U)
                       (map (fun v => np_exp (- theta * v) - #1) V) ;;
    let den := np_exp (- theta) - #1 in
    Ok (map (fun n => #(-1) / theta * np_log (#1 + n / den)) num).

(** The loop of the Gumbel branch: iteration [i] reads [V[i]] only when
    [U[i]] is not zero. *)
Fixpoint gumbel_values (theta : F) (U V : list F) : result (list F) :=
  match U with
  | [] => Ok []
  | u :: U' =>
      x <- (if u =? #0 then Ok #0
            else v <- getitem V 0 ;;
                 let h := np_power (- np_log u) theta + np_power (- np_log v) theta in
                 let h := - np_power h (#1 / theta) in
                 Ok (np_exp h)) ;;
      xs <- gumbel_values theta U' (tl V) ;;
      Ok (x :: xs)
  end.

Definition gumbel_cdf : evaluator := fun U V theta =>
  if theta <? #1 then Raise (ValueError "Theta cannot be less than 1 for Gumbel")
  else if theta =? #1 then np_multiply U V
  else gumbel_values theta U V.

Definition unsupported {A : Type} (cname : option string) : result A :=
  Raise (Exception_ ("Unsupported distribution: " ++ str cname)).

(** [_get_cdf(self)]. *)
Definition _get_cdf (cname : option string) : result evaluator :=
  if is_name cname "clayton" then Ok clayton_cdf
  else if is_name cname "frank" then Ok frank_cdf
  else if is_name cname "gumbel" then Ok gumbel_cdf
  else unsupported cname.

(** The statements of [__init__] before [if dev:], for a caller that
    leaves [dev] at its default: the attributes are set, Kendall's tau is
    computed, and a truthy [cname] has the parameter estimated and the
    [cdf] closure built. *)
Definition init_attributes (U V : list F) (theta : option F)
    (cname : option string) : result Copula :=
  tau <- kendalltau U V ;;
  if truthy cname then
    let theta := _get_parameter cname tau theta in
    cdf <- _get_cdf cname ;;
    Ok {| U := U; V := V; theta := theta; cname := cname; tau := tau;
          cdf := Some cdf; derivative := None |}
  else
    Ok {| U := U; V := V; theta := theta; cname := cname; tau := tau;
          cdf := None; derivative := None |}.

(** Calling the attribute [cdf] of an instance. *)
Definition call_cdf (c : Copula) (U V : list F) (theta : option F)
  : result (list F) :=
  match cdf c, theta with
  | None, _ => Raise AttributeError
  | Some _, None => Raise TypeError
  | Some f, Some t => f U V t
  end.

Definition clayton_du : evaluator := fun u v theta =>
  if theta =? #0 then Ok v
  else
    let A := map (fun x => np_power x theta) u in
    let B := map (fun x => np_power x (- theta) - #1) u in
    h <- np_multiply A B ;;
    let h := map (fun x => #1 + x) h in
    let h := map (fun x => np_power x ((#(-1) - theta) / theta)) h in
    Ok h.

Definition frank_du : evaluator := fun u v theta =>
  if theta =? #0 then Ok v
  else
    let g := fun (theta : list F) (z : F) =>
               map (fun t => #(-1) + np_exp (- (t * z))) theta in
    gugv <- np_multiply (g u theta) (g v theta) ;;
    num <- np_add gugv (g v theta) ;;
    let den := map (fun x => x + (#(-1) + np_exp (- (#1 * theta)))) gugv in
    np_divide num den.

Definition gumbel_du : evaluator := fun u v theta =>
  if theta =? #1 then Ok v
  else
    c <- init_attributes u v (Some theta) (Some "gumbel"%string) ;;
    p1 <- call_cdf c u v (Some theta) ;;
    s <- np_add (map (fun x => np_power (- np_log x) theta) u)
                (map (fun y => np_power (- np_log y) theta) v) ;;
    let p2 := map (fun x => np_power x (#(-1) + #1 / theta)) s in
    let p3 := map (fun x => np_power (- np_log x) (theta - #1)) u in
    p12 <- np_multiply p1 p2 ;;
    p123 <- np_multiply p12 p3 ;;
    np_divide p123 u.

(** [_get_du(self)]. *)
Definition _get_du (cname : option string) : result evaluator :=
  if is_name cname "clayton" then Ok clayton_du
  else if is_name cname "frank" then Ok frank_du
  else if is_name cname "gumbel" then Ok gumbel_du
  else unsupported cname.

(** The assignment [self.derivative = du]. *)
Definition set_derivative (self : Copula) (du : evaluator) : Copula :=
  {| U := self.(U); V := self.(V); theta := self.(theta);
     cname := self.(cname); tau := self.(tau); cdf := self.(cdf);
     derivative := Some du |}.

(** [Copula.__init__(self, U, V, theta, cname, dev)]. *)
Definition __init__ (U V : list F) (theta : option F) (cname : option string)
    (dev : bool) : result Copula :=
  self <- init_attributes U V theta cname ;;
  if dev then
    du <- _get_du cname ;;
    Ok (set_derivative self du)
  else Ok self.

(** *** [compute_empirical] *)

(** [sum(mask) / N]: the builtin sum of no booleans is the integer zero,
    and dividing it by the integer zero raises. *)
Definition fraction (mask : list bool) (N : nat) : result F :=
  if (N =? 0)%nat then Raise ZeroDivisionError
  else Ok (of_int (Z.of_nat (count_true mask)) / of_int (Z.of_nat N)).

(** The four lists the loop appends to. *)
Definition profile : Type := (list F * list F * list F * list F)%type.

(** One iteration of the loop, for the index [k] and the threshold
    [base[k]]. *)
Definition empirical_step (u v : list F) (N : nat) (k : nat) (base_k : F)
    (acc : profile) : result profile :=
  let '(z_left, L, z_right, R) := acc in
  both_below <- np_logical_and (map (fun x => x <=? base_k) u)
                               (map (fun y => y <=? base_k) v) ;;
  left <- fraction both_below N ;;
  both_above <- np_logical_and (map (fun x => base_k <=? x) u)
                               (map (fun y => base_k <=? y) v) ;;
  right <- fraction both_above N ;;
  let '(z_left, L) :=
    if #0 <? left
    then (z_left ++ [base_k], L ++ [left / square base_k])
    else (z_left, L) in
  if #0 <? right then
    let z_right := z_right ++ [base_k] in
    z <- getitem z_right k ;;
    Ok (z_left, L, z_right, R ++ [right / square (#1 - z)])
  else Ok (z_left, L, z_right, R).

(** The loop [for k in range(len(base))], entered at index [k] with the
    thresholds [base[k:]] still to visit. *)
Fixpoint empirical_loop (u v : list F) (N : nat) (k : nat) (rest : list F)
    (acc : profile) : result profile :=
  match rest with
  | [] => Ok acc
  | base_k :: rest' =>
      acc' <- empirical_step u v N k base_k acc ;;
      empirical_loop u v N (S k) rest' acc'
  end.

Definition base : list F := np_linspace #0 #1 50.

Definition compute_empirical (u v : list F) : result profile :=
  let N := length u in
  empirical_loop u v N 0 base ([], [], [], []).

(** *** [select_copula] *)

(** The lambda [g] of [select_copula]. *)
Definition g (c : list F) (z : list F) : result (list F) :=
  n <- np_add (map (fun x => #1 - #2 * x) z) c ;;
  np_divide n (map (fun x => square (#1 - x)) z).

(** [np.sum((E - t) ** 2)] for an empirical profile [E] and a theoretical
    one [t]. *)
Definition cost (E t : list F) : result F :=
  d <- np_subtract E t ;;
  Ok (np_sum (map square d)).

(** The comprehension [[np.sum((E - t) ** 2) for t in ts]]. *)
Fixpoint costs (E : list F) (ts : list (list F)) : result (list F) :=
  match ts with
  | [] => Ok []
  | t :: ts' =>
      c <- cost E t ;;
      cs <- costs E ts' ;;
      Ok (c :: cs)
  end.

Definition lower_profile (c : Copula) (z_left : list F) : result (list F) :=
  p <- call_cdf c z_left z_left c.(theta) ;;
  np_divide p (map square z_left).

Definition upper_profile (c : Copula) (z_right : list F) : result (list F) :=
  p <- call_cdf c z_right z_right c.(theta) ;;
  g p z_right.

(** The statements from the call of [compute_empirical] to the two
    lists [cost_L] and [cost_R]. *)
Definition tail_costs (clayton_c frank_c gumbel_c : Copula) (U V : list F)
  : result (list F * list F) :=
  '(z_left, L, z_right, R) <- compute_empirical U V ;;
  l0 <- lower_profile clayton_c z_left ;;
  l1 <- lower_profile frank_c z_left ;;
  l2 <- lower_profile gumbel_c z_left ;;
  let left_dependence := [l0; l1; l2] in
  r0 <- upper_profile clayton_c z_right ;;
  r1 <- upper_profile frank_c z_right ;;
  r2 <- upper_profile gumbel_c z_right ;;
  let right_dependence := [r0; r1; r2] in
  cost_L <- costs L left_dependence ;;
  cost_R <- costs R right_dependence ;;
  Ok (cost_L, cost_R).

Definition select_copula (U V : list F) : result (nat * option F) :=
  clayton_c <- __init__ U V None (Some "clayton"%string) false ;;
  frank_c <- __init__ U V None (Some "frank"%string) false ;;
  gumbel_c <- __init__ U V None (Some "gumbel"%string) false ;;
  let theta_c := [clayton_c.(theta); frank_c.(theta); gumbel_c.(theta)] in
  if clayton_c.(tau) <=? #0 then
    let bestC := 2%nat in
    let paramC := frank_c.(theta) in
    Ok (bestC, paramC)
  else
    '(cost_L, cost_R) <- tail_costs clayton_c frank_c gumbel_c U V ;;
    let cost_LR := cost_L ++ cost_R in
    bestC <- np_argmax cost_LR ;;
    paramC <- getitem theta_c bestC ;;
    Ok (bestC, paramC).

(** *** Vocabulary of the properties *)

(** The families in the order of the list [theta_c] of [select_copula]. *)
Definition families : list string := ["clayton"; "frank"; "gumbel"]%string.

(** The parameter [__init__] stores for a family, given Kendall's tau. *)
Definition fitted_theta (name : string) (tau : F) : option F :=
  _get_parameter (Some name) tau None.

(** The list [theta_c] of [select_copula], given Kendall's tau. *)
Definition fitted_thetas (tau : F) : list (option F) :=
  map (fun name => fitted_theta name tau) families.

(** The evaluator [_get_cdf] builds for each supported family. *)
Definition evaluator_of (name : string) : evaluator :=
  if String.eqb name "clayton" then clayton_cdf
  else if String.eqb name "frank" then frank_cdf
  else gumbel_cdf.

(** The instance [Copula(U, V, cname=name)] of a supported family, given
    Kendall's tau. *)
Definition fitted (name : string) (U V : list F) (tau : F) : Copula :=
  {| U := U; V := V; theta := fitted_theta name tau; cname := Some name;
     tau := tau; cdf := Some (evaluator_of name); derivative := None |}.

(** The least parameter a family admits, which is also the parameter at
    which the family is the independence copula: 0 for Clayton and
    Frank, 1 for Gumbel. *)
Definition lower_bound (name : string) : F :=
  if String.eqb name "gumbel" then #1 else #0.

(** The error the evaluator of a family raises for a parameter outside
    its domain. *)
Definition domain_error (name : string) : exn :=
  ValueError (if String.eqb name "clayton"
              then "Theta cannot be than 0 for clayton"
              else if String.eqb name "frank"
              then "Theta cannot be less than 0 for Frank"
              else "Theta cannot be less than 1 for Gumbel").

(** The joint counts of [compute_empirical] at a threshold [z]: the
    observations with both coordinates at most [z], and those with both
    at least [z]. *)
Definition count_below (u v : list F) (z : F) : nat :=
  count_true (zip_with andb (map (fun x => x <=? z) u) (map (fun y => y <=? z) v)).

Definition count_above (u v : list F) (z : F) : nat :=
  count_true (zip_with andb (map (fun x => z <=? x) u) (map (fun y => z <=? y) v)).

(** The empirical probabilities [P(U <= z, V <= z)] and
    [P(U >= z, V >= z)]. *)
Definition P_below (u v : list F) (z : F) : F :=
  of_int (Z.of_nat (count_below u v z)) / of_int (Z.of_nat (length u)).

Definition P_above (u v : list F) (z : F) : F :=
  of_int (Z.of_nat (count_above u v z)) / of_int (Z.of_nat (length u)).

(** The tail profile over a list of thresholds as the specification
    words it: the thresholds with a positive joint count, and at each of
    them the statistic [P / z^2], respectively [P / (1 - z)^2]. *)
Definition profile_of (u v : list F) (grid : list F) : profile :=
  let z_left := filter (fun z => (0 <? count_below u v z)%nat) grid in
  let z_right := filter (fun z => (0 <? count_above u v z)%nat) grid in
  (z_left, map (fun z => P_below u v z / square z) z_left,
   z_right, map (fun z => P_above u v z / square (#1 - z)) z_right).

Definition empirical_spec (u v : list F) : profile := profile_of u v base.

(** The evaluator [_get_du] builds for each supported family. *)
Definition du_of (name : string) : evaluator :=
  if String.eqb name "clayton" then clayton_du
  else if String.eqb name "frank" then frank_du
  else gumbel_du.

(** The tail profile over a list of thresholds with the test the loop
    itself applies, a positive empirical probability. *)
Definition probability_profile (u v : list F) (grid : list F) : profile :=
  let z_left := filter (fun z => #0 <? P_below u v z) grid in
  let z_right := filter (fun z => #0 <? P_above u v z) grid in
  (z_left, map (fun z => P_below u v z / square z) z_left,
   z_right, map (fun z => P_above u v z / square (#1 - z)) z_right).

(** The third list of a profile, [z_right]. *)
Definition upper_thresholds (p : profile) : list F := snd (fst p).

(** What the literals [0] and [1] must satisfy for the tests
    [theta < 0], [theta == 0], [theta < 1] and [theta == 1]. *)
Class LiteralLaws : Prop := {
  zero_not_below_zero : (#0 <? #0) = false;
  zero_equals_zero : (#0 =? #0) = true;
  one_not_below_one : (#1 <? #1) = false;
  one_equals_one : (#1 =? #1) = true
}.

(** What [compute_empirical] needs of the order: [<=] is transitive, the
    grid ascends, and a fraction of counts is positive exactly when its
    numerator is. *)
Class OrderLaws : Prop := {
  leb_trans : forall x y z : F,
    (x <=? y) = true -> (y <=? z) = true -> (x <=? z) = true;
  base_ascending : forall (j k : nat) (bj bk : F),
    (j <= k)%nat -> nth_error base j = Some bj -> nth_error base k = Some bk ->
    (bj <=? bk) = true;
  fraction_positive : forall c N : nat,
    (0 < N)%nat ->
    (#0 <? of_int (Z.of_nat c) / of_int (Z.of_nat N)) = (0 <? c)%nat
}.

End CopulaModel.

(** ** Binary64: the numbers CPython computes with *)

(** The instance [Numeric float] is IEEE 754 binary64 arithmetic on the
    kernel's primitive floats, which is the arithmetic of Python's [float]
    and numpy's [float64].  The elementary functions and the scipy routines
    are not the libraries' own code: [float_exp], [float_log] and
    [float_pow] are short textbook algorithms (argument reduction and a
    series), [nelder_mead] is the simplex iteration of
    [scipy.optimize.fmin] in one dimension, [midpoint_quad] is a fixed
    midpoint rule and [kendall_tau_b] counts concordant and discordant
    pairs.  They make the model run on concrete data; the theorems below
    hold for every instance of [NumPy] and [SciPy]. *)
Module Binary64.

Local Open Scope float_scope.

Definition Z2float (z : Z) : float :=
  SF2Prim (binary_normalize prec emax z 0 false).

Definition float2Z (x : float) : Z :=
  match Prim2SF x with
  | S754_finite s m e => cond_Zopp s (Z.shiftl (Zpos m) e)
  | _ => 0%Z
  end.

#[export] Instance binary64_numeric : Numeric float := {|
  of_int := Z2float;
  add := PrimFloat.add;
  sub := PrimFloat.sub;
  mul := PrimFloat.mul;
  div := PrimFloat.div;
  neg := PrimFloat.opp;
  square := fun x => PrimFloat.mul x x;
  ltb := PrimFloat.ltb;
  leb := PrimFloat.leb;
  eqb := PrimFloat.eqb
|}.

(** Rounding to the nearest integer, ties to even. *)
Definition rint (x : float) : float :=
  if abs x <? 0x1p52 then
    if x <? 0 then (x - 0x1p52) + 0x1p52 else (x + 0x1p52) - 0x1p52
  else x.

Definition ln2 : float := 0x1.62e42fefa39efp-1.
Definition ln2_hi : float := 0x1.62e42feep-1.
Definition ln2_lo : float := 0x1.a39ef35793c76p-33.

(** [1 + r/k (1 + r/(k+1) (1 + ...))], the exponential series in Horner
    form with [n] divisions. *)
Fixpoint exp_series (n : nat) (k : float) (r : float) : float :=
  match n with
  | O => 1
  | S n' => 1 + r / k * exp_series n' (k + 1) r
  end.

Definition float_exp (x : float) : float :=
  if x <? -746 then 0
  else if 710 <? x then infinity
  else
    let k := rint (x / ln2) in
    let r := (x - k * ln2_hi) - k * ln2_lo in
    Z.ldexp (exp_series 13 1 r) (float2Z k).

(** [1/k + s2 (1/(k+2) + s2 (...))], the series of [atanh s / s] in
    [s2 = s * s]. *)
Fixpoint atanh_series (n : nat) (k : float) (s2 : float) : float :=
  match n with
  | O => 1 / k
  | S n' => 1 / k + s2 * atanh_series n' (k + 2) s2
  end.

Definition float_log (x : float) : float :=
  if x =? 0 then neg_infinity
  else if x <? 0 then nan
  else if x =? infinity then infinity
  else
    let (m, e) := Z.frexp x in
    let (m, e) :=
      if m <? 0x1.6a09e667f3bcdp-1 then (2 * m, (e - 1)%Z) else (m, e) in
    let s := (m - 1) / (m + 1) in
    Z2float e * ln2 + 2 * s * atanh_series 12 1 (s * s).

Definition is_integer (y : float) : bool := rint y =? y.
Definition is_odd (y : float) : bool := is_integer y && negb (is_integer (y / 2)).

Definition float_pow (x y : float) : float :=
  if y =? 0 then 1
  else if x =? 1 then 1
  else if is_nan x || is_nan y then nan
  else if x =? 0 then (if 0 <? y then 0 else infinity)
  else if x <? 0 then
    if is_integer y then
      let p := float_exp (y * float_log (- x)) in
      if is_odd y then - p else p
    else nan
  else float_exp (y * float_log x).

#[export] Instance binary64_numpy : NumPy float := {|
  np_exp := float_exp;
  np_log := float_log;
  np_power := float_pow;
  np_sum := fun xs => fold_left PrimFloat.add xs 0;
  float_epsilon := 0x1p-52
|}.

(** A vertex of the simplex with the value of the objective there. *)
Definition vertex : Type := (float * float)%type.

(** The order [argsort] puts two vertices in: by value, a NaN last. *)
Definition nm_sort (a b : vertex) : vertex * vertex :=
  if (snd b <? snd a) || (is_nan (snd a) && negb (is_nan (snd b)))
  then (b, a) else (a, b).

(** One iteration for the simplex [{best, worst}]: reflection, expansion,
    contraction or shrinking with the coefficients 1, 2, 1/2 and 1/2;
    the result is the new second vertex and the number of evaluations. *)
Definition nm_step (f : float -> float) (best worst : vertex) : vertex * nat :=
  let (x0, f0) := best in
  let (x1, f1) := worst in
  let shrink := let x := x0 + 0.5 * (x1 - x0) in (x, f x) in
  let xr := 2 * x0 - x1 in
  let fxr := f xr in
  if fxr <? f0 then
    let xe := 3 * x0 - 2 * x1 in
    let fxe := f xe in
    if fxe <? fxr then ((xe, fxe), 2%nat) else ((xr, fxr), 2%nat)
  else if fxr <? f1 then
    let xc := 1.5 * x0 - 0.5 * x1 in
    let fxc := f xc in
    if fxc <=? fxr then ((xc, fxc), 2%nat) else (shrink, 3%nat)
  else
    let xcc := 0.5 * x0 + 0.5 * x1 in
    let fxcc := f xcc in
    if fxcc <? f1 then ((xcc, fxcc), 2%nat) else (shrink, 3%nat).

Fixpoint nm_loop (fuel : nat) (f : float -> float) (best worst : vertex)
    (fcalls iterations : nat) : float :=
  match fuel with
  | O => fst best
  | S fuel' =>
      if ((fcalls <? 200) && (iterations <? 200))%nat then
        if (abs (fst worst - fst best) <=? 1e-4)
           && (abs (snd best - snd worst) <=? 1e-4)
        then fst best
        else
          let (w, n) := nm_step f best worst in
          let (b', w') := nm_sort best w in
          nm_loop fuel' f b' w' (fcalls + n) (S iterations)
      else fst best
  end.

Definition nelder_mead (f : float -> float) (x0 : float) : float :=
  let x1 := if x0 =? 0 then 0.00025 else (1 + 0.05) * x0 in
  let (b, w) := nm_sort (x0, f x0) (x1, f x1) in
  nm_loop 200 f b w 2 1.

(** The midpoint rule on 64 panels; no error estimate. *)
Definition midpoint_quad (f : float -> float) (a b : float) : float * float :=
  let h := (b - a) / 64 in
  (fold_left (fun s i => s + f (a + (Z2float (Z.of_nat i) + 0.5) * h) * h)
             (seq 0 64) 0,
   0).

(** The pairs [(i, j)], [i < j], of a sample, as pairs of points. *)
Fixpoint pairs {A : Type} (xs : list A) : list (A * A) :=
  match xs with
  | [] => []
  | x :: xs' => map (fun y => (x, y)) xs' ++ pairs xs'
  end.

Definition count_pairs {A : Type} (p : A * A -> bool) (xs : list A) : Z :=
  Z.of_nat (length (filter p (pairs xs))).

(** Kendall's tau-b of two samples of equal size. *)
Definition kendall_tau_b (x y : list float) : result float :=
  if negb (length x =? length y)%nat
  then Raise (ValueError "All inputs to kendalltau must be of the same size")
  else
    let pts := combine x y in
    let ordered := fun (a b c d : float) => (a <? b) && (c <? d) in
    let con := count_pairs (fun '((a, c), (b, d)) =>
                 ordered a b c d || ordered b a d c) pts in
    let dis := count_pairs (fun '((a, c), (b, d)) =>
                 ordered a b d c || ordered b a c d) pts in
    let xtie := count_pairs (fun '((a, _), (b, _)) => a =? b) pts in
    let ytie := count_pairs (fun '((_, c), (_, d)) => c =? d) pts in
    let tot := count_pairs (fun _ => true) pts in
    if (tot =? 0)%Z || (xtie =? tot)%Z || (ytie =? tot)%Z then Ok nan
    else
      let t := Z2float (con - dis) / sqrt (Z2float (tot - xtie))
               / sqrt (Z2float (tot - ytie)) in
      Ok (if t <? -1 then -1 else if 1 <? t then 1 else t).

#[export] Instance binary64_scipy : SciPy float := {|
  kendalltau := kendall_tau_b;
  fmin := nelder_mead;
  quad := midpoint_quad
|}.

End Binary64.

(** ** Exact rationals *)

(** Arithmetic without rounding, for the parts of the module that use
    nothing but the four operations and comparisons. *)
Module Exact.

#[export] Instance rational_numeric : Numeric Q := {|
  of_int := inject_Z;
  add := Qplus;
  sub := Qminus;
  mul := Qmult;
  div := Qdiv;
  neg := Qopp;
  square := fun x => Qmult x x;
  ltb := fun x y => negb (Qle_bool y x);
  leb := Qle_bool;
  eqb := Qeq_bool
|}.

End Exact.

(** * Properties *)

Section Construction.

Context {F : Type} {Num : Numeric F} {NP : NumPy F} {SP : SciPy F}.

Lemma bind_ok {A B : Type} (r : result A) (k : A -> result B) (b : B) :
  bind r k = Ok b -> exists a, r = Ok a /\ k a = Ok b.
Proof.
  destruct r as [a | e]; simpl; intros E; [ eauto | discriminate ].
Qed.

Lemma get_cdf_supported (name : string) :
  In name families -> _get_cdf (Some name) = Ok (evaluator_of name).
Proof.
  intros [<- | [<- | [<- | []]]]; reflexivity.
Qed.

Lemma truthy_supported (name : string) :
  In name families -> truthy (Some name) = true.
Proof.
  intros [<- | [<- | [<- | []]]]; reflexivity.
Qed.

(** Constructing a supported family without the derivative: the instance
    is determined by the data and Kendall's tau. *)
Lemma init_supported (U V : list F) (th : option F) (name : string) (t : F) :
  In name families ->
  kendalltau U V = Ok t ->
  __init__ U V th (Some name) false = Ok (fitted name U V t).
Proof.
  intros Hin Ht. unfold __init__, init_attributes. rewrite Ht. cbn [bind].
  rewrite (truthy_supported Hin), (get_cdf_supported Hin). cbn [bind].
  destruct Hin as [<- | [<- | [<- | []]]]; reflexivity.
Qed.

Lemma init_raises (U V : list F) (th : option F) (cname : option string)
    (dev : bool) (e : exn) :
  kendalltau U V = Raise e -> __init__ U V th cname dev = Raise e.
Proof.
  intros Ht. unfold __init__, init_attributes. rewrite Ht. reflexivity.
Qed.

(** C4. For every construction of the family 'clayton' the stored
    parameter is [10000] when Kendall's tau equals 1 and
    [2 * tau / (1 - tau)] otherwise; for every construction of the family
    'gumbel' it is [10000] when tau equals 1 and [1 / (1 - tau)]
    otherwise.  The tau in question is the one [kendalltau] returned for
    the data. *)
Theorem closed_form_parameter (U V : list F) (th : option F) (dev : bool)
    (name : string) (c : Copula) :
  name = "clayton"%string \/ name = "gumbel"%string ->
  __init__ U V th (Some name) dev = Ok c ->
  kendalltau U V = Ok c.(tau) /\
  ((c.(tau) =? #1) = true -> c.(theta) = Some #10000) /\
  ((c.(tau) =? #1) = false ->
     c.(theta) = Some (if String.eqb name "clayton"
                       then #2 * c.(tau) / (#1 - c.(tau))
                       else #1 / (#1 - c.(tau)))).
Proof.
  intros Hname Hinit. unfold __init__, init_attributes in Hinit.
  destruct (kendalltau U V) as [t | e] eqn:Ht; [ | discriminate ].
  assert (Hc : c.(tau) = t /\ c.(theta) = fitted_theta name t).
  { destruct Hname as [-> | ->], dev; simpl in Hinit;
      injection Hinit as <-; split; reflexivity. }
  destruct Hc as [-> Hth]. split; [ reflexivity | ].
  rewrite Hth. unfold fitted_theta, _get_parameter.
  destruct Hname as [-> | ->]; simpl;
    split; intros E; rewrite E; reflexivity.
Qed.

(** C10. For every construction in which a supported family name is
    supplied, the parameter stored on the instance is the estimate
    [_get_parameter] derives from Kendall's tau; the [theta] passed to
    the constructor has no influence on the instance. *)
Theorem constructor_overwrites_theta (U V : list F) (th th' : option F)
    (name : string) (dev : bool) :
  In name families ->
  __init__ U V th (Some name) dev = __init__ U V th' (Some name) dev /\
  (forall c : Copula,
      __init__ U V th (Some name) dev = Ok c ->
      kendalltau U V = Ok c.(tau) /\ c.(theta) = fitted_theta name c.(tau)).
Proof.
  intros Hin. unfold __init__, init_attributes.
  destruct (kendalltau U V) as [t | e]; cbn [bind].
  - rewrite (truthy_supported Hin), (get_cdf_supported Hin).
    assert (E : forall o : option F,
               _get_parameter (Some name) t o = fitted_theta name t).
    { intros o. destruct Hin as [<- | [<- | [<- | []]]]; reflexivity. }
    cbn [bind]. rewrite !E. split; [ reflexivity | ].
    intros c Hc.
    destruct Hin as [<- | [<- | [<- | []]]], dev; simpl in Hc;
      injection Hc as <-; split; reflexivity.
  - split; [ reflexivity | intros c Hc; discriminate ].
Qed.

End Construction.

(** C7. For every construction of the family 'frank' the stored parameter
    is the negation of what [fmin] returns for [_frank_help] started at
    [-5], and [_frank_help(alpha)] is the square of
    [(1 - tau)/4 - (debye(-alpha) - 1)/alpha] with [debye(t) = t/(e^t - 1)]
    evaluated at the point [-alpha]: the value of the objective is the same
    whatever the quadrature routine returns. *)
Theorem frank_objective_ignores_quadrature
    (F : Type) (Num : Numeric F) (NP : NumPy F) (SP SP' : SciPy F)
    (tau alpha : F) :
  fitted_theta (SP := SP) "frank" tau
    = Some (- fmin (SciPy := SP) (_frank_help (SP := SP) tau) #(-5)) /\
  _frank_help (SP := SP) tau alpha = _frank_help (SP := SP') tau alpha /\
  _frank_help (SP := SP) tau alpha =
    square ((#1 - tau) / #4
            - ((- alpha) / (np_exp (- alpha) - #1) - #1) / alpha).
Proof.
  split; [ reflexivity | split; reflexivity ].
Qed.

Section Evaluators.

Context {F : Type} {Num : Numeric F} {NP : NumPy F} {SP : SciPy F}.

Lemma np_broadcast_same_length {A B C : Type} (f : A -> B -> C)
    (xs : list A) (ys : list B) :
  length xs = length ys -> np_broadcast f xs ys = Ok (zip_with f xs ys).
Proof.
  intros E. unfold np_broadcast. rewrite E, Nat.eqb_refl. reflexivity.
Qed.

Lemma np_broadcast_raises {A B C : Type} (f : A -> B -> C)
    (xs : list A) (ys : list B) (e : exn) :
  np_broadcast f xs ys = Raise e ->
  e = ValueError "operands could not be broadcast together".
Proof.
  unfold np_broadcast. destruct (length xs =? length ys)%nat; [ discriminate | ].
  destruct xs as [ | x [ | x' xs ] ], ys as [ | y [ | y' ys ] ];
    intros E; try discriminate; injection E as <-; reflexivity.
Qed.

Lemma getitem_raises {A : Type} (xs : list A) (i : nat) (e : exn) :
  getitem xs i = Raise e -> e = IndexError.
Proof.
  unfold getitem. destruct (nth_error xs i); intros E;
    [ discriminate | injection E as <-; reflexivity ].
Qed.

(** The comprehension of the Clayton branch fails only by indexing [V]
    out of range. *)
Lemma clayton_values_raises (theta : F) (U V : list F) (e : exn) :
  clayton_values theta U V = Raise e -> e = IndexError.
Proof.
  revert V. induction U as [ | u U IH ]; intros V; cbn [clayton_values].
  - discriminate.
  - destruct (#0 <? u).
    + destruct V as [ | v V ]; cbn [getitem nth_error bind tl].
      * intros E; injection E as <-; reflexivity.
      * destruct (clayton_values theta U V) eqn:EU; cbn [bind];
          [ discriminate | intros E; injection E as <-; eauto ].
    + cbn [bind].
      destruct (clayton_values theta U (tl V)) eqn:EU; cbn [bind];
        [ discriminate | intros E; injection E as <-; eauto ].
Qed.

Lemma clayton_values_ok (theta : F) (U V : list F) :
  (length U <= length V)%nat -> exists r, clayton_values theta U V = Ok r.
Proof.
  revert V. induction U as [ | u U IH ]; intros V Hlen; cbn [clayton_values].
  - eauto.
  - destruct V as [ | v V ]; cbn [length] in Hlen; [ lia | ].
    destruct (IH V ltac:(lia)) as [r Hr]. cbn [tl].
    destruct (#0 <? u); cbn [getitem nth_error bind]; rewrite Hr;
      cbn [bind]; eauto.
Qed.

(** The loop of the Gumbel branch likewise. *)
Lemma gumbel_values_raises (theta : F) (U V : list F) (e : exn) :
  gumbel_values theta U V = Raise e -> e = IndexError.
Proof.
  revert V. induction U as [ | u U IH ]; intros V; cbn [gumbel_values].
  - discriminate.
  - destruct (u =? #0).
    + cbn [bind].
      destruct (gumbel_values theta U (tl V)) eqn:EU; cbn [bind];
        [ discriminate | intros E; injection E as <-; eauto ].
    + destruct V as [ | v V ]; cbn [getitem nth_error bind tl].
      * intros E; injection E as <-; reflexivity.
      * destruct (gumbel_values theta U V) eqn:EU; cbn [bind];
          [ discriminate | intros E; injection E as <-; eauto ].
Qed.

Lemma gumbel_values_ok (theta : F) (U V : list F) :
  (length U <= length V)%nat -> exists r, gumbel_values theta U V = Ok r.
Proof.
  revert V. induction U as [ | u U IH ]; intros V Hlen; cbn [gumbel_values].
  - eauto.
  - destruct V as [ | v V ]; cbn [length] in Hlen; [ lia | ].
    destruct (IH V ltac:(lia)) as [r Hr]. cbn [tl].
    destruct (u =? #0); cbn [getitem nth_error bind]; rewrite Hr;
      cbn [bind]; eauto.
Qed.

Lemma broadcast_error_is_no_domain_error (n : string) :
  ValueError "operands could not be broadcast together" <> domain_error n.
Proof.
  unfold domain_error.
  destruct (String.eqb n "clayton"), (String.eqb n "frank"); discriminate.
Qed.

(** C5. For every supported family and every pair of sequences of equal
    length, the evaluator [_get_cdf] builds for the family, called with
    the family's independence parameter (0 for Clayton and Frank, 1 for
    Gumbel), returns the elementwise product of the two sequences. *)
Theorem independence_parameter_gives_product {LL : LiteralLaws}
    (name : string) (U V : list F) :
  In name families ->
  length U = length V ->
  exists cdf : evaluator,
    _get_cdf (Some name) = Ok cdf /\
    cdf U V (lower_bound name) = Ok (zip_with mul U V).
Proof.
  intros Hin Hlen. exists (evaluator_of name).
  split; [ apply get_cdf_supported, Hin | ].
  destruct LL as [L00 E00 L11 E11].
  destruct Hin as [<- | [<- | [<- | []]]];
    cbn [evaluator_of lower_bound String.eqb Ascii.eqb Bool.eqb];
    [ unfold clayton_cdf; rewrite L00, E00
    | unfold frank_cdf; rewrite L00, E00
    | unfold gumbel_cdf; rewrite L11, E11 ];
    apply np_broadcast_same_length, Hlen.
Qed.

(** C6. For every supported family the evaluator tests the parameter
    first.  Below the family's bound (0 for Clayton and Frank, 1 for
    Gumbel) it raises the family's domain error whatever the two
    sequences are, so before any elementwise computation.  Otherwise it
    raises no domain error, and on sequences of equal length it raises
    nothing at all. *)
Theorem cdf_domain_check (name : string) (U V : list F) (theta : F) :
  In name families ->
  _get_cdf (Some name) = Ok (evaluator_of name) /\
  ((theta <? lower_bound name) = true ->
     evaluator_of name U V theta = Raise (domain_error name)) /\
  ((theta <? lower_bound name) = false ->
     (forall e : exn, evaluator_of name U V theta = Raise e ->
                      forall n : string, e <> domain_error n) /\
     (length U = length V -> exists r, evaluator_of name U V theta = Ok r)).
Proof.
  intros Hin. split; [ apply get_cdf_supported, Hin | ].
  destruct Hin as [<- | [<- | [<- | []]]];
    cbn [evaluator_of lower_bound domain_error String.eqb Ascii.eqb Bool.eqb].
  - (* clayton *)
    unfold clayton_cdf. split; intros Hlt; rewrite Hlt; [ reflexivity | ].
    destruct (theta =? #0).
    + split.
      * intros e He n. rewrite (np_broadcast_raises _ _ _ He).
        apply broadcast_error_is_no_domain_error.
      * intros Hlen. eexists. apply np_broadcast_same_length, Hlen.
    + split.
      * intros e He n.
        destruct (clayton_values theta U V) as [r | e'] eqn:EV;
          cbn [bind] in He; [ discriminate | ].
        injection He as <-. rewrite (clayton_values_raises _ _ _ EV).
        discriminate.
      * intros Hlen.
        destruct (clayton_values_ok theta U V) as [r Hr]; [ lia | ].
        rewrite Hr. cbn [bind]. eauto.
  - (* frank *)
    unfold frank_cdf. split; intros Hlt; rewrite Hlt; [ reflexivity | ].
    destruct (theta =? #0).
    + split.
      * intros e He n. rewrite (np_broadcast_raises _ _ _ He).
        apply broadcast_error_is_no_domain_error.
      * intros Hlen. eexists. apply np_broadcast_same_length, Hlen.
    + split.
      * intros e He n.
        match type of He with
        | bind ?m _ = _ => destruct m as [r | e'] eqn:EV
        end; cbn [bind] in He; [ discriminate | ].
        injection He as <-. rewrite (np_broadcast_raises _ _ _ EV).
        apply broadcast_error_is_no_domain_error.
      * intros Hlen. unfold np_multiply.
        rewrite np_broadcast_same_length by (rewrite !length_map; exact Hlen).
        cbn [bind]. eauto.
  - (* gumbel *)
    unfold gumbel_cdf. split; intros Hlt; rewrite Hlt; [ reflexivity | ].
    destruct (theta =? #1).
    + split.
      * intros e He n. rewrite (np_broadcast_raises _ _ _ He).
        apply broadcast_error_is_no_domain_error.
      * intros Hlen. eexists. apply np_broadcast_same_length, Hlen.
    + split.
      * intros e He n. rewrite (gumbel_values_raises _ _ _ He).
        discriminate.
      * intros Hlen. apply gumbel_values_ok. lia.
Qed.

End Evaluators.

Section Selection.

Context {F : Type} {Num : Numeric F} {NP : NumPy F} {SP : SciPy F}.

(** [select_copula] once Kendall's tau of the data is known: the three
    instances are the fitted ones and [theta_c] is [fitted_thetas]. *)
Lemma select_copula_unfold (U V : list F) (t : F) :
  kendalltau U V = Ok t ->
  select_copula U V =
    if t <=? #0 then Ok (2%nat, fitted_theta "frank" t)
    else
      '(cost_L, cost_R) <- tail_costs (fitted "clayton" U V t)
                             (fitted "frank" U V t) (fitted "gumbel" U V t) U V ;;
      bestC <- np_argmax (cost_L ++ cost_R) ;;
      paramC <- getitem (fitted_thetas t) bestC ;;
      Ok (bestC, paramC).
Proof.
  intros Ht. unfold select_copula.
  rewrite (init_supported U V None (name := "clayton") (t := t)) by (cbn; tauto).
  rewrite (init_supported U V None (name := "frank") (t := t)) by (cbn; tauto).
  rewrite (init_supported U V None (name := "gumbel") (t := t)) by (cbn; tauto).
  reflexivity.
Qed.

Lemma costs_length (E : list F) (ts : list (list F)) (cs : list F) :
  costs E ts = Ok cs -> length cs = length ts.
Proof.
  revert cs. induction ts as [ | t ts IH ]; intros cs; cbn [costs].
  - intros E0; injection E0 as <-; reflexivity.
  - intros E0. apply bind_ok in E0 as (c & _ & E0).
    apply bind_ok in E0 as (cs' & Ecs & E0). injection E0 as <-.
    cbn [length]. f_equal. apply IH, Ecs.
Qed.

(** Both cost lists have one entry per family. *)
Lemma tail_costs_length (a b c : Copula) (U V cost_L cost_R : list F) :
  tail_costs a b c U V = Ok (cost_L, cost_R) ->
  length cost_L = 3%nat /\ length cost_R = 3%nat.
Proof.
  unfold tail_costs. intros E.
  apply bind_ok in E as ([[[z_left L] z_right] R] & _ & E).
  do 6 (apply bind_ok in E as (? & _ & E)).
  apply bind_ok in E as (cL & HL & E).
  apply bind_ok in E as (cR & HR & E).
  injection E as <- <-.
  apply costs_length in HL, HR. auto.
Qed.

(** C1. For every pair of sequences whose Kendall's tau is at most 0,
    [select_copula] returns before any tail profile or cost is computed,
    and what it returns is the index 2 paired with the parameter fitted
    for Frank.  In the order of [theta_c], which is the order the
    comparison path indexes, 2 is the position of Gumbel and Frank's
    position is 1. *)
Theorem short_circuit_returns_index_two (U V : list F) (t : F) :
  kendalltau U V = Ok t ->
  (t <=? #0) = true ->
  select_copula U V = Ok (2%nat, fitted_theta "frank" t) /\
  nth_error families 2 = Some "gumbel"%string /\
  nth_error families 1 = Some "frank"%string.
Proof.
  intros Ht Hle. rewrite (select_copula_unfold _ _ Ht), Hle.
  repeat split.
Qed.

(** C2. For every pair of sequences on which [select_copula] completes,
    the returned index is below 3.  On the comparison path the returned
    parameter is the entry of [theta_c] at that index.  On the
    short-circuit path the index is 2 and the parameter is the one
    fitted for Frank, while the entry of [theta_c] at index 2 is the
    parameter fitted for Gumbel. *)
Theorem select_copula_result (U V : list F) (t : F) (i : nat) (p : option F) :
  kendalltau U V = Ok t ->
  select_copula U V = Ok (i, p) ->
  (i < 3)%nat /\
  ((t <=? #0) = false -> getitem (fitted_thetas t) i = Ok p) /\
  ((t <=? #0) = true ->
     i = 2%nat /\ p = fitted_theta "frank" t /\
     getitem (fitted_thetas t) i = Ok (fitted_theta "gumbel" t)).
Proof.
  intros Ht. rewrite (select_copula_unfold _ _ Ht).
  destruct (t <=? #0).
  - intros E; injection E as <- <-. repeat split; (lia || discriminate).
  - intros E. apply bind_ok in E as ([cL cR] & _ & E).
    apply bind_ok in E as (bestC & _ & E).
    apply bind_ok in E as (paramC & Hget & E).
    injection E as <- <-.
    split; [ | split; [ intros _; exact Hget | discriminate ] ].
    unfold getitem in Hget.
    destruct (nth_error (fitted_thetas t) bestC) eqn:En; [ | discriminate ].
    apply (nth_error_Some (fitted_thetas t) bestC). congruence.
Qed.

(** C3. On the comparison path the two lists of three costs are
    concatenated into one list of six, and [np.argmax] of that list is
    used as the index into [theta_c].  When the index is below 3 it is
    returned with the parameter at that index; when the largest entry is
    one of the three upper-tail costs the index is 3 or more and
    [select_copula] raises [IndexError]. *)
Theorem argmax_over_concatenated_costs (U V : list F) (t : F)
    (cost_L cost_R : list F) (i : nat) :
  kendalltau U V = Ok t ->
  (t <=? #0) = false ->
  tail_costs (fitted "clayton" U V t) (fitted "frank" U V t)
             (fitted "gumbel" U V t) U V = Ok (cost_L, cost_R) ->
  np_argmax (cost_L ++ cost_R) = Ok i ->
  length (cost_L ++ cost_R) = 6%nat /\
  ((i < 3)%nat ->
     exists p, nth_error (fitted_thetas t) i = Some p /\
               select_copula U V = Ok (i, p)) /\
  ((3 <= i)%nat -> select_copula U V = Raise IndexError).
Proof.
  intros Ht Hgt Hcosts Hmax.
  rewrite (select_copula_unfold _ _ Ht), Hgt, Hcosts. cbn [bind].
  rewrite Hmax. cbn [bind].
  destruct (tail_costs_length _ _ _ _ _ Hcosts) as [HL HR].
  split; [ rewrite length_app; lia | ]. unfold getitem. split.
  - intros Hi.
    destruct (nth_error (fitted_thetas t) i) as [p | ] eqn:En.
    + exists p. split; reflexivity.
    + apply nth_error_None in En. cbn in En. lia.
  - intros Hi.
    destruct (nth_error (fitted_thetas t) i) as [p | ] eqn:En;
      [ | reflexivity ].
    assert (Hlt : (i < length (fitted_thetas t))%nat)
      by (apply nth_error_Some; congruence).
    cbn in Hlt. lia.
Qed.

End Selection.

Section Empirical.

Context {F : Type} {Num : Numeric F} {OL : OrderLaws}.

(** Weakening both tests cannot lower a joint count. *)
Lemma count_true_zip_mono (p p' q q' : F -> bool) (u v : list F) :
  (forall x, p x = true -> p' x = true) ->
  (forall y, q y = true -> q' y = true) ->
  (count_true (zip_with andb (map p u) (map q v))
   <= count_true (zip_with andb (map p' u) (map q' v)))%nat.
Proof.
  intros Hp Hq. revert v.
  induction u as [ | x u IH ]; intros [ | y v ]; cbn; try lia.
  specialize (IH v). unfold count_true in IH.
  destruct (p x) eqn:Epx, (q y) eqn:Eqy; cbn;
    try (rewrite (Hp _ Epx)); try (rewrite (Hq _ Eqy)); cbn;
    try lia;
    destruct (p' x), (q' y); cbn; lia.
Qed.

(** The upper joint count does not grow with the threshold. *)
Lemma count_above_antitone (u v : list F) (z z' : F) :
  (z <=? z') = true -> (count_above u v z' <= count_above u v z)%nat.
Proof.
  intros Hz. apply count_true_zip_mono; intros x Hx;
    exact (leb_trans _ _ _ Hz Hx).
Qed.

Lemma fraction_ok (mask : list bool) (n : nat) :
  n <> 0%nat ->
  fraction mask n = Ok (of_int (Z.of_nat (count_true mask)) / of_int (Z.of_nat n)).
Proof.
  intros Hn. unfold fraction.
  destruct (Nat.eqb_spec n 0); [ contradiction | reflexivity ].
Qed.

Lemma filter_all {A : Type} (p : A -> bool) (xs : list A) :
  (forall x, In x xs -> p x = true) -> filter p xs = xs.
Proof.
  induction xs as [ | x xs IH ]; intros Hall; cbn; [ reflexivity | ].
  rewrite (Hall x (or_introl eq_refl)). f_equal.
  apply IH. intros y Hy. apply Hall. right. exact Hy.
Qed.

(** One iteration extends the state by the threshold it visits, provided
    the thresholds visited before are not above it. *)
Lemma empirical_step_spec (u v : list F) (pre : list F) (base_k : F) :
  length u = length v ->
  u <> [] ->
  (forall z, In z pre -> (z <=? base_k) = true) ->
  empirical_step u v (length u) (length pre) base_k (profile_of u v pre)
  = Ok (profile_of u v (pre ++ [base_k])).
Proof.
  intros Hlen Hne Hpre.
  assert (HN : length u <> 0%nat) by (destruct u; [ contradiction | discriminate ]).
  unfold empirical_step, profile_of, np_logical_and.
  rewrite !np_broadcast_same_length by (rewrite !length_map; exact Hlen).
  cbn [bind]. rewrite !fraction_ok by exact HN. cbn [bind].
  rewrite !fraction_positive by lia.
  fold (count_below u v base_k). fold (count_above u v base_k).
  fold (P_below u v base_k). fold (P_above u v base_k).
  rewrite !filter_app. cbn [filter].
  destruct (0 <? count_above u v base_k)%nat eqn:Ea.
  - assert (Hall : filter (fun z => (0 <? count_above u v z)%nat) pre = pre).
    { apply filter_all. intros z Hz. apply Nat.ltb_lt.
      apply Nat.ltb_lt in Ea.
      pose proof (count_above_antitone u v _ _ (Hpre z Hz)). lia. }
    rewrite Hall. unfold getitem.
    rewrite nth_error_app2, Nat.sub_diag by lia. cbn [nth_error bind].
    destruct (0 <? count_below u v base_k)%nat;
      rewrite ?map_app, ?app_nil_r; reflexivity.
  - destruct (0 <? count_below u v base_k)%nat;
      rewrite ?map_app, ?app_nil_r; reflexivity.
Qed.

(** The loop over an ascending list of thresholds. *)
Lemma empirical_loop_spec (u v : list F) (rest pre : list F) :
  length u = length v ->
  u <> [] ->
  (forall (j k : nat) (bj bk : F),
      (j <= k)%nat -> nth_error (pre ++ rest) j = Some bj ->
      nth_error (pre ++ rest) k = Some bk -> (bj <=? bk) = true) ->
  empirical_loop u v (length u) (length pre) rest (profile_of u v pre)
  = Ok (profile_of u v (pre ++ rest)).
Proof.
  intros Hlen Hne. revert pre.
  induction rest as [ | base_k rest IH ]; intros pre Hasc; cbn [empirical_loop].
  - rewrite app_nil_r. reflexivity.
  - rewrite empirical_step_spec; try assumption.
    + cbn [bind].
      replace (S (length pre)) with (length (pre ++ [base_k]))
        by (rewrite length_app; cbn; lia).
      rewrite IH; rewrite <- app_assoc; [ reflexivity | exact Hasc ].
    + intros z Hz. apply In_nth_error in Hz as [j Hj].
      assert (Hjlt : (j < length pre)%nat)
        by (apply nth_error_Some; congruence).
      apply (Hasc j (length pre)); [ lia | | ].
      * rewrite nth_error_app1 by exact Hjlt. exact Hj.
      * rewrite nth_error_app2, Nat.sub_diag by lia. reflexivity.
Qed.


End Empirical.

Section Binary64Evaluation.

Import Binary64.
Local Open Scope float_scope.

Context (NP : NumPy float).

(** C9. The bound [0 <= cdf <= min(u, v)] does not hold of the Frank
    evaluator in binary64.  For [theta = 50] and [u = v = 0.9] the two
    exponentials [exp(-45)] and [exp(-50)] are below half a unit in the
    last place of 1, so both [exp(-45) - 1] and [exp(-50) - 1] are
    exactly [-1]; the argument of the logarithm is then [1 + 1/(-1) = 0]
    and, the logarithm of zero being minus infinity, the value returned
    is plus infinity, which is above [min(u, v) = 0.9]. *)
Theorem frank_cdf_leaves_unit_interval :
  np_exp (-45) - 1 = -1 ->
  np_exp (-50) - 1 = -1 ->
  np_log 0 = neg_infinity ->
  frank_cdf (NP := NP) [0.9] [0.9] 50 = Ok [infinity] /\
  (infinity <=? 0.9) = false.
Proof.
  intros H45 H50 Hlog. split; [ | reflexivity ].
  unfold frank_cdf.
  change (50 <? #0)%py with false. change (50 =? #0)%py with false.
  cbn [map np_multiply np_broadcast length Nat.eqb zip_with bind].
  change (- (50) * 0.9)%py with (-45).
  change (- (50))%py with (-50).
  change (np_exp (-45) - #1)%py with (np_exp (-45) - 1).
  change (np_exp (-50) - #1)%py with (np_exp (-50) - 1).
  rewrite H45, H50.
  match goal with
  | |- context [np_log ?x] => change x with 0
  end.
  rewrite Hlog. reflexivity.
Qed.

End Binary64Evaluation.

(** ** The laws in the two instances *)

Section Ascending.

Context {F : Type} {Num : Numeric F}.

Lemma ascending_spec (xs : list F) :
  ascending xs = true ->
  forall (j k : nat) (bj bk : F),
    (j <= k)%nat -> nth_error xs j = Some bj -> nth_error xs k = Some bk ->
    (bj <=? bk) = true.
Proof.
  induction xs as [ | x xs IH ]; cbn [ascending]; intros Hasc j k bj bk Hjk Hj Hk.
  - destruct j; discriminate.
  - apply andb_prop in Hasc as [Hx Hrest]. apply andb_prop in Hx as [Hxx Hall].
    destruct j as [ | j ], k as [ | k ]; cbn [nth_error] in Hj, Hk.
    + injection Hj as <-. injection Hk as <-. exact Hxx.
    + injection Hj as <-. apply nth_error_In in Hk.
      rewrite forallb_forall in Hall. apply Hall, Hk.
    + lia.
    + apply (IH Hrest j k); [ lia | assumption | assumption ].
Qed.

End Ascending.

#[export] Instance binary64_literals :
  LiteralLaws (Num := Binary64.binary64_numeric).
Proof. split; reflexivity. Qed.

#[export] Instance rational_literals :
  LiteralLaws (Num := Exact.rational_numeric).
Proof. split; reflexivity. Qed.

Lemma rational_fraction_positive (c n : nat) :
  (0 < n)%nat ->
  negb (Qle_bool (inject_Z (Z.of_nat c) / inject_Z (Z.of_nat n)) (inject_Z 0))
  = (0 <? c)%nat.
Proof.
  intros Hn.
  assert (Hnq : (0 < inject_Z (Z.of_nat n))%Q)
    by (unfold Qlt; cbn; lia).
  destruct c as [ | c ].
  - cbn [Nat.ltb Nat.leb negb]. change (inject_Z (Z.of_nat 0)) with 0%Q.
    replace (Qle_bool (0 / inject_Z (Z.of_nat n)) (inject_Z 0)) with true;
      [ reflexivity | ].
    symmetry. apply Qle_bool_iff.
    unfold Qdiv. rewrite Qmult_0_l. apply Qle_refl.
  - change (0 <? S c)%nat with true.
    destruct (Qle_bool _ _) eqn:E; [ exfalso | reflexivity ].
    apply Qle_bool_iff in E.
    assert (Hpos : (0 < inject_Z (Z.of_nat (S c)) / inject_Z (Z.of_nat n))%Q).
    { apply Qlt_shift_div_l; [ exact Hnq | ].
      rewrite Qmult_0_l. unfold Qlt; cbn; lia. }
    apply (Qlt_irrefl 0). eapply Qlt_le_trans; [ exact Hpos | exact E ].
Qed.

#[export] Instance rational_order : OrderLaws (Num := Exact.rational_numeric).
Proof.
  split.
  - intros x y z Hxy Hyz. apply Qle_bool_iff.
    apply Qle_bool_iff in Hxy, Hyz. eapply Qle_trans; eassumption.
  - apply ascending_spec. vm_compute. reflexivity.
  - exact rational_fraction_positive.
Qed.

(** ** Concrete runs *)

(** The theorems above at concrete data, in binary64 with the routines
    of [Binary64] and, for [compute_empirical], in exact rationals. *)

Import Binary64 Exact.

(** Two observations in opposite order: Kendall's tau is -1. *)
Lemma short_circuit_returns_index_two_witness :
  kendalltau [0.1; 0.2]%float [0.2; 0.1]%float = Ok (-1)%float /\
  ((-1)%float <=? #0) = true /\
  select_copula [0.1; 0.2]%float [0.2; 0.1]%float
    = Ok (2%nat, fitted_theta "frank" (-1)%float) /\
  nth_error families 2 = Some "gumbel"%string /\
  nth_error families 1 = Some "frank"%string.
Proof.
  assert (Ht : kendalltau [0.1; 0.2]%float [0.2; 0.1]%float = Ok (-1)%float)
    by (vm_compute; reflexivity).
  assert (Hle : ((-1)%float <=? #0) = true) by reflexivity.
  exact (conj Ht (conj Hle (short_circuit_returns_index_two _ _ Ht Hle))).
Defined.

(** The same data: the pair returned is index 2 with Frank's parameter,
    about 0.00012, while the entry of [theta_c] at index 2 is Gumbel's
    parameter 0.5. *)
Lemma select_copula_result_witness :
  select_copula [0.1; 0.2]%float [0.2; 0.1]%float
    = Ok (2%nat, Some 0.0001220703125%float) /\
  fitted_theta "gumbel" (-1)%float = Some 0.5%float /\
  (2 < 3)%nat /\
  (((-1)%float <=? #0) = false ->
     getitem (fitted_thetas (-1)%float) 2 = Ok (Some 0.0001220703125%float)) /\
  (((-1)%float <=? #0) = true ->
     2%nat = 2%nat /\
     Some 0.0001220703125%float = fitted_theta "frank" (-1)%float /\
     getitem (fitted_thetas (-1)%float) 2 = Ok (fitted_theta "gumbel" (-1)%float)).
Proof.
  assert (Ht : kendalltau [0.1; 0.2]%float [0.2; 0.1]%float = Ok (-1)%float)
    by (vm_compute; reflexivity).
  assert (Hs : select_copula [0.1; 0.2]%float [0.2; 0.1]%float
               = Ok (2%nat, Some 0.0001220703125%float))
    by (vm_compute; reflexivity).
  split; [ exact Hs | ]. split; [ vm_compute; reflexivity | ].
  exact (select_copula_result _ _ Ht Hs).
Defined.

(** Four observations near the upper corner, one pair discordant: every
    upper-tail cost exceeds every lower-tail cost, the largest entry of
    the concatenated list is its fourth, and the lookup in [theta_c]
    fails. *)
Lemma argmax_over_concatenated_costs_witness :
  let U := [0.8; 0.85; 0.9; 0.95]%float in
  let V := [0.85; 0.8; 0.9; 0.95]%float in
  let t := 0.66666666666666685%float in
  let cost_L := [0.52525303262071854; 0.61105027992124195; 0.686025633103854]%float in
  let cost_R := [10246.292936318288; 9230.6470566870066; 8172.5955863503896]%float in
  kendalltau U V = Ok t /\
  (t <=? #0) = false /\
  tail_costs (fitted "clayton" U V t) (fitted "frank" U V t)
             (fitted "gumbel" U V t) U V = Ok (cost_L, cost_R) /\
  np_argmax (cost_L ++ cost_R) = Ok 3%nat /\
  select_copula U V = Raise IndexError.
Proof.
  intros U V t cost_L cost_R.
  assert (Ht : kendalltau U V = Ok t) by (vm_compute; reflexivity).
  assert (Hgt : (t <=? #0) = false) by reflexivity.
  assert (Hc : tail_costs (fitted "clayton" U V t) (fitted "frank" U V t)
                 (fitted "gumbel" U V t) U V = Ok (cost_L, cost_R))
    by (vm_compute; reflexivity).
  assert (Hm : np_argmax (cost_L ++ cost_R) = Ok 3%nat) by (vm_compute; reflexivity).
  repeat (split; [ assumption | ]).
  exact (proj2 (proj2 (argmax_over_concatenated_costs _ _ Ht Hgt Hc Hm))
               (le_n 3)).
Defined.

(** The data of the module's own quick test, family 'clayton'. *)
Lemma closed_form_parameter_witness :
  let U := [0.1; 0.2; 0.3; 0.4]%float in
  let V := [0.5; 0.6; 0.5; 0.8]%float in
  let c := fitted "clayton" U V 0.54772255750516619%float in
  __init__ U V None (Some "clayton"%string) false = Ok c /\
  kendalltau U V = Ok c.(tau) /\
  ((c.(tau) =? #1) = true -> c.(theta) = Some #10000) /\
  ((c.(tau) =? #1) = false ->
     c.(theta) = Some (#2 * c.(tau) / (#1 - c.(tau)))).
Proof.
  intros U V c.
  assert (Ht : kendalltau U V = Ok 0.54772255750516619%float)
    by (vm_compute; reflexivity).
  assert (Hc : __init__ U V None (Some "clayton"%string) false = Ok c)
    by (apply init_supported; [ cbn; tauto | exact Ht ]).
  split; [ exact Hc | ].
  exact (closed_form_parameter U V None false (or_introl eq_refl) Hc).
Defined.

Lemma independence_parameter_gives_product_witness :
  exists cdf : evaluator,
    _get_cdf (Some "gumbel"%string) = Ok cdf /\
    cdf [0.1; 0.2]%float [0.3; 0.4]%float (lower_bound "gumbel")
      = Ok (zip_with mul [0.1; 0.2]%float [0.3; 0.4]%float).
Proof.
  apply (independence_parameter_gives_product (LL := binary64_literals)).
  - cbn. tauto.
  - reflexivity.
Defined.

(** The specification's example for Gumbel: [theta = 0.5] on [[0.1]],
    [[0.1]]. *)
Lemma cdf_domain_check_witness :
  In "gumbel"%string families /\
  (0.5%float <? lower_bound "gumbel") = true /\
  evaluator_of "gumbel" [0.1]%float [0.1]%float 0.5%float
    = Raise (domain_error "gumbel").
Proof.
  assert (Hin : In "gumbel"%string families) by (cbn; tauto).
  split; [ exact Hin | ]. split; [ reflexivity | ].
  exact (proj1 (proj2 (cdf_domain_check [0.1]%float [0.1]%float 0.5%float Hin))
               eq_refl).
Defined.


Lemma frank_cdf_leaves_unit_interval_witness :
  (np_exp (-45) - 1 = -1)%float /\
  (np_exp (-50) - 1 = -1)%float /\
  np_log 0%float = neg_infinity /\
  frank_cdf [0.9]%float [0.9]%float 50%float = Ok [infinity] /\
  (infinity <=? 0.9)%float = false.
Proof.
  assert (H45 : (np_exp (-45) - 1 = -1)%float) by (vm_compute; reflexivity).
  assert (H50 : (np_exp (-50) - 1 = -1)%float) by (vm_compute; reflexivity).
  assert (Hlog : np_log 0%float = neg_infinity) by (vm_compute; reflexivity).
  repeat (split; [ assumption | ]).
  exact (frank_cdf_leaves_unit_interval binary64_numpy H45 H50 Hlog).
Defined.

(** The quick test's data, family 'frank', once with no [theta] and once
    with [theta = 3], with and without the derivative. *)
Lemma constructor_overwrites_theta_witness :
  let U := [0.1; 0.2; 0.3; 0.4]%float in
  let V := [0.5; 0.6; 0.5; 0.8]%float in
  In "frank"%string families /\
  __init__ U V None (Some "frank"%string) true
    = __init__ U V (Some 3%float) (Some "frank"%string) true /\
  (forall c : Copula,
      __init__ U V None (Some "frank"%string) true = Ok c ->
      kendalltau U V = Ok c.(tau) /\ c.(theta) = fitted_theta "frank" c.(tau)).
Proof.
  intros U V.
  assert (Hin : In "frank"%string families) by (cbn; tauto).
  split; [ exact Hin | ].
  exact (constructor_overwrites_theta U V None (Some 3%float) true Hin).
Defined.

(** In binary64 too the loop of [compute_empirical] agrees with the
    profile of the specification, here on the data of the module's quick
    test of [select_copula]. *)
Example compute_empirical_binary64 :
  let U := [0.1; 0.2; 0.3; 0.4]%float in
  let V := [0.2; 0.15; 0.3; 0.5]%float in
  compute_empirical U V = Ok (empirical_spec U V).
Proof. vm_compute. reflexivity. Qed.

(** The parameter 10000 that [_get_parameter] stores for Gumbel when tau
    is 1 makes both powers of the Gumbel evaluator underflow: the value at
    [u = v = 0.5] is 1. *)
Example gumbel_cdf_at_sentinel :
  fitted_theta "gumbel" 1%float = Some 10000%float /\
  gumbel_cdf [0.5]%float [0.5]%float 10000%float = Ok [1%float].
Proof. split; vm_compute; reflexivity. Qed.

(** * Further properties of the constructor and the evaluators *)

Section ConstructorEdges.

Context {F : Type} {Num : Numeric F} {NP : NumPy F} {SP : SciPy F}.

Lemma is_name_other (name s : string) :
  name <> s -> is_name (Some name) s = false.
Proof.
  intros Hne. cbn [is_name]. apply String.eqb_neq. exact Hne.
Qed.

(** X1. Constructing with a non-empty family name other than 'clayton',
    'frank' and 'gumbel' raises [Exception('Unsupported distribution: ' +
    name)], whatever [theta] and [dev] are: [_get_parameter] matches no
    branch and [_get_cdf] reaches its final [else]. *)
Theorem unsupported_family_raises (U V : list F) (th : option F)
    (name : string) (dev : bool) (t : F) :
  name <> ""%string ->
  ~ In name families ->
  kendalltau U V = Ok t ->
  __init__ U V th (Some name) dev
  = Raise (Exception_ ("Unsupported distribution: " ++ name)).
Proof.
  intros Hne Hnot Ht. unfold __init__, init_attributes. rewrite Ht. cbn [bind].
  assert (Htr : truthy (Some name) = true).
  { cbn [truthy]. apply negb_true_iff, String.eqb_neq, Hne. }
  rewrite Htr. unfold _get_cdf.
  rewrite !is_name_other by (intros ->; apply Hnot; cbn; tauto).
  reflexivity.
Qed.

(** X2. Constructing without a family ([cname] is [None] or the empty
    string) estimates nothing: without [dev] the instance keeps the
    [theta] it was given and has neither [cdf] nor [derivative]; with
    [dev] the constructor raises, because [_get_du] supports no such
    name. *)
Theorem constructor_without_family (U V : list F) (th : option F)
    (cname : option string) (t : F) :
  truthy cname = false ->
  kendalltau U V = Ok t ->
  (exists c : Copula,
      __init__ U V th cname false = Ok c /\
      c.(theta) = th /\ c.(tau) = t /\ c.(cdf) = None /\ c.(derivative) = None) /\
  __init__ U V th cname true
  = Raise (Exception_ ("Unsupported distribution: " ++ str cname)).
Proof.
  intros Hf Ht. unfold __init__, init_attributes. rewrite Ht. cbn [bind].
  rewrite Hf. cbn [bind]. split.
  - eexists. split; [ reflexivity | cbn; auto ].
  - destruct cname as [s | ]; [ | reflexivity ].
    cbn [truthy] in Hf. apply negb_false_iff, String.eqb_eq in Hf. subst s.
    reflexivity.
Qed.

(** X3. An exception of [kendalltau] leaves the constructor, whatever the
    other arguments are, and leaves [select_copula] too. *)
Theorem kendalltau_error_propagates (U V : list F) (e : exn) :
  kendalltau U V = Raise e ->
  (forall (th : option F) (cname : option string) (dev : bool),
      __init__ U V th cname dev = Raise e) /\
  select_copula U V = Raise e.
Proof.
  intros Ht. split.
  - intros th cname dev. apply init_raises, Ht.
  - unfold select_copula. rewrite (init_raises _ _ _ _ _ Ht). reflexivity.
Qed.

(** X4. For a supported family, asking for the derivative changes nothing
    but the attribute [derivative]: the instance built with [dev] is the
    one built without it, which has no derivative, with the family's [du]
    attached. *)
Theorem derivative_on_request (U V : list F) (th : option F) (name : string)
    (t : F) :
  In name families ->
  kendalltau U V = Ok t ->
  exists c : Copula,
    __init__ U V th (Some name) false = Ok c /\
    c.(derivative) = None /\
    _get_du (Some name) = Ok (du_of name) /\
    __init__ U V th (Some name) true = Ok (set_derivative c (du_of name)).
Proof.
  intros Hin Ht. exists (fitted name U V t).
  split; [ apply init_supported; assumption | ].
  split; [ reflexivity | ].
  assert (Hdu : _get_du (Some name) = Ok (du_of name))
    by (destruct Hin as [<- | [<- | [<- | []]]]; reflexivity).
  split; [ exact Hdu | ].
  pose proof (init_supported U V th Hin Ht) as Hinit.
  unfold __init__ in *.
  destruct (init_attributes U V th (Some name)) as [c | e]; cbn [bind] in *;
    [ | discriminate ].
  injection Hinit as ->. rewrite Hdu. reflexivity.
Qed.

End ConstructorEdges.

Section EvaluatorEdges.

Context {F : Type} {Num : Numeric F} {NP : NumPy F} {SP : SciPy F}.

Lemma zip_with_length {A B C : Type} (f : A -> B -> C) (xs : list A)
    (ys : list B) :
  length xs = length ys -> length (zip_with f xs ys) = length xs.
Proof.
  revert ys. induction xs as [ | x xs IH ]; intros [ | y ys ] E; cbn in *;
    try reflexivity; try discriminate.
  f_equal. apply IH. lia.
Qed.

Lemma np_broadcast_mismatch {A B C : Type} (f : A -> B -> C) (xs : list A)
    (ys : list B) :
  length xs <> length ys -> length xs <> 1%nat -> length ys <> 1%nat ->
  np_broadcast f xs ys
  = Raise (ValueError "operands could not be broadcast together").
Proof.
  intros Hne Hx Hy. unfold np_broadcast.
  destruct (Nat.eqb_spec (length xs) (length ys)); [ contradiction | ].
  destruct xs as [ | x [ | x' xs ] ], ys as [ | y [ | y' ys ] ];
    cbn in *; congruence.
Qed.

Lemma clayton_values_length (theta : F) (U V r : list F) :
  clayton_values theta U V = Ok r -> length r = length U.
Proof.
  revert V r. induction U as [ | u U IH ]; intros V r; cbn [clayton_values].
  - intros E; injection E as <-; reflexivity.
  - intros E. apply bind_ok in E as (x & _ & E).
    apply bind_ok in E as (xs & Hxs & E). injection E as <-.
    cbn [length]. f_equal. exact (IH _ _ Hxs).
Qed.

Lemma gumbel_values_length (theta : F) (U V r : list F) :
  gumbel_values theta U V = Ok r -> length r = length U.
Proof.
  revert V r. induction U as [ | u U IH ]; intros V r; cbn [gumbel_values].
  - intros E; injection E as <-; reflexivity.
  - intros E. apply bind_ok in E as (x & _ & E).
    apply bind_ok in E as (xs & Hxs & E). injection E as <-.
    cbn [length]. f_equal. exact (IH _ _ Hxs).
Qed.

(** X5. Whenever the evaluator of a supported family returns on two
    sequences of equal length, it returns one value per pair. *)
Theorem cdf_returns_one_value_per_pair (name : string) (U V : list F)
    (theta : F) (r : list F) :
  In name families ->
  length U = length V ->
  evaluator_of name U V theta = Ok r ->
  length r = length U.
Proof.
  intros Hin Hlen.
  assert (Hprod : forall r', np_multiply U V = Ok r' -> length r' = length U).
  { unfold np_multiply. rewrite np_broadcast_same_length by exact Hlen.
    intros r' E; injection E as <-. apply zip_with_length, Hlen. }
  destruct Hin as [<- | [<- | [<- | []]]];
    cbn [evaluator_of String.eqb Ascii.eqb Bool.eqb].
  - unfold clayton_cdf. destruct (theta <? #0); [ discriminate | ].
    destruct (theta =? #0); [ apply Hprod | ].
    intros E. apply bind_ok in E as (c & Hc & E). injection E as <-.
    rewrite length_map. exact (clayton_values_length _ _ _ Hc).
  - unfold frank_cdf. destruct (theta <? #0); [ discriminate | ].
    destruct (theta =? #0); [ apply Hprod | ].
    unfold np_multiply.
    rewrite np_broadcast_same_length by (rewrite !length_map; exact Hlen).
    cbn [bind]. intros E; injection E as <-.
    rewrite length_map, zip_with_length, length_map;
      [ reflexivity | rewrite !length_map; exact Hlen ].
  - unfold gumbel_cdf. destruct (theta <? #1); [ discriminate | ].
    destruct (theta =? #1); [ apply Hprod | ].
    apply gumbel_values_length.
Qed.

(** X6. Away from the independence parameter, no value the Clayton
    evaluator returns is below zero: every entry has passed through
    [max(x, 0)]. *)
Theorem clayton_cdf_is_clamped {LL : LiteralLaws} (U V : list F) (theta : F)
    (r : list F) :
  (theta =? #0) = false ->
  clayton_cdf U V theta = Ok r ->
  Forall (fun x => (x <? #0) = false) r.
Proof.
  intros Hnz. unfold clayton_cdf.
  destruct (theta <? #0); [ discriminate | ]. rewrite Hnz.
  intros E. apply bind_ok in E as (c & _ & E). injection E as <-.
  apply Forall_forall. intros x Hx. apply in_map_iff in Hx as (y & <- & _).
  unfold py_max. destruct (y <? #0) eqn:Ey;
    [ apply zero_not_below_zero | exact Ey ].
Qed.

(** The guards of the two loops: where [U[i] > 0] fails (Clayton), or
    [U[i] == 0] holds (Gumbel), the entry is the literal 0 and [V] is not
    read. *)
Lemma clayton_values_guarded (theta : F) (U V : list F) :
  Forall (fun u => (#0 <? u) = false) U ->
  clayton_values theta U V = Ok (repeat #0 (length U)).
Proof.
  intros HU. revert V. induction HU as [ | u U Hu _ IH ]; intros V;
    cbn [clayton_values]; [ reflexivity | ].
  rewrite Hu. cbn [bind]. rewrite IH. reflexivity.
Qed.

Lemma gumbel_values_guarded (theta : F) (U V : list F) :
  Forall (fun u => (u =? #0) = true) U ->
  gumbel_values theta U V = Ok (repeat #0 (length U)).
Proof.
  intros HU. revert V. induction HU as [ | u U Hu _ IH ]; intros V;
    cbn [gumbel_values]; [ reflexivity | ].
  rewrite Hu. cbn [bind]. rewrite IH. reflexivity.
Qed.

(** X7. In the loops of the Clayton and Gumbel evaluators a guard on
    [U[i]] alone decides whether the formula is evaluated.  When no entry
    of [U] is positive the Clayton evaluator returns zeros, and when every
    entry of [U] equals zero the Gumbel evaluator returns zeros; in both
    cases [V] is never read, so it may have any length. *)
Theorem zero_guard_skips_formula {LL : LiteralLaws} (U V : list F) (theta : F) :
  ((theta <? #0) = false -> (theta =? #0) = false ->
   Forall (fun u => (#0 <? u) = false) U ->
   clayton_cdf U V theta = Ok (repeat #0 (length U))) /\
  ((theta <? #1) = false -> (theta =? #1) = false ->
   Forall (fun u => (u =? #0) = true) U ->
   gumbel_cdf U V theta = Ok (repeat #0 (length U))).
Proof.
  split; intros Hlt Hnz HU.
  - unfold clayton_cdf. rewrite Hlt, Hnz, clayton_values_guarded by exact HU.
    cbn [bind]. f_equal. induction (length U) as [ | n IH ]; cbn [repeat map];
      [ reflexivity | ].
    f_equal; [ | exact IH ]. unfold py_max. rewrite zero_not_below_zero.
    reflexivity.
  - unfold gumbel_cdf. rewrite Hlt, Hnz. apply gumbel_values_guarded, HU.
Qed.

Lemma clayton_values_short (theta : F) (U V : list F) :
  (length V < length U)%nat ->
  Forall (fun u => (#0 <? u) = true) U ->
  clayton_values theta U V = Raise IndexError.
Proof.
  intros Hlen HU. revert V Hlen. induction HU as [ | u U Hu _ IH ];
    intros V Hlen; cbn [length] in Hlen; [ lia | ].
  cbn [clayton_values]. rewrite Hu.
  destruct V as [ | v V ]; [ reflexivity | ].
  cbn [getitem nth_error bind tl]. cbn [length] in Hlen.
  rewrite IH by lia. reflexivity.
Qed.

Lemma gumbel_values_short (theta : F) (U V : list F) :
  (length V < length U)%nat ->
  Forall (fun u => (u =? #0) = false) U ->
  gumbel_values theta U V = Raise IndexError.
Proof.
  intros Hlen HU. revert V Hlen. induction HU as [ | u U Hu _ IH ];
    intros V Hlen; cbn [length] in Hlen; [ lia | ].
  cbn [gumbel_values]. rewrite Hu.
  destruct V as [ | v V ]; [ reflexivity | ].
  cbn [getitem nth_error bind tl]. cbn [length] in Hlen.
  rewrite IH by lia. reflexivity.
Qed.

(** X8. With [V] shorter than [U], and away from the independence
    parameter, the Clayton evaluator raises [IndexError] when every entry
    of [U] is positive, and so does the Gumbel evaluator when no entry of
    [U] equals zero: the loops index [V] by the positions of [U]. *)
Theorem short_V_raises_index_error (U V : list F) (theta : F) :
  (length V < length U)%nat ->
  ((theta <? #0) = false -> (theta =? #0) = false ->
   Forall (fun u => (#0 <? u) = true) U ->
   clayton_cdf U V theta = Raise IndexError) /\
  ((theta <? #1) = false -> (theta =? #1) = false ->
   Forall (fun u => (u =? #0) = false) U ->
   gumbel_cdf U V theta = Raise IndexError).
Proof.
  intros Hlen. split; intros Hlt Hnz HU.
  - unfold clayton_cdf. rewrite Hlt, Hnz, clayton_values_short by assumption.
    reflexivity.
  - unfold gumbel_cdf. rewrite Hlt, Hnz. apply gumbel_values_short; assumption.
Qed.

(** X9. The Frank evaluator is vectorised: for a parameter that is not
    below zero and two sequences whose lengths differ, neither being 1, it
    raises numpy's broadcasting [ValueError], at the independence
    parameter and away from it. *)
Theorem frank_cdf_shape_mismatch (U V : list F) (theta : F) :
  (theta <? #0) = false ->
  length U <> length V -> length U <> 1%nat -> length V <> 1%nat ->
  frank_cdf U V theta
  = Raise (ValueError "operands could not be broadcast together").
Proof.
  intros Hlt Hne HU HV. unfold frank_cdf, np_multiply. rewrite Hlt.
  destruct (theta =? #0).
  - apply np_broadcast_mismatch; assumption.
  - rewrite np_broadcast_mismatch by (rewrite ?length_map; assumption).
    reflexivity.
Qed.

End EvaluatorEdges.

Section DerivativeEvaluators.

Context {F : Type} {Num : Numeric F} {NP : NumPy F} {SP : SciPy F}.

(** X10. At the independence parameter (0 for Clayton and Frank, 1 for
    Gumbel) the derivative evaluator of every supported family returns
    its second argument [v] as it is, whatever the two sequences are and
    whatever their lengths. *)
Theorem du_at_independence_returns_v {LL : LiteralLaws} (name : string)
    (u v : list F) :
  In name families ->
  _get_du (Some name) = Ok (du_of name) /\
  du_of name u v (lower_bound name) = Ok v.
Proof.
  intros Hin. destruct LL as [_ E00 _ E11].
  destruct Hin as [<- | [<- | [<- | []]]];
    (split; [ reflexivity | ]);
    cbn [du_of lower_bound String.eqb Ascii.eqb Bool.eqb];
    [ unfold clayton_du; rewrite E00
    | unfold frank_du; rewrite E00
    | unfold gumbel_du; rewrite E11 ]; reflexivity.
Qed.

(** X11. Away from [theta == 0] the Clayton derivative evaluator never
    raises, tests no domain, and does not depend on [v]: it returns one
    value per entry of [u], computed from [u] and [theta] alone. *)
Theorem clayton_du_ignores_v (u : list F) (theta : F) :
  (theta =? #0) = false ->
  exists r : list F,
    length r = length u /\
    forall v : list F, clayton_du u v theta = Ok r.
Proof.
  intros Hnz. unfold clayton_du, np_multiply. rewrite Hnz.
  rewrite np_broadcast_same_length by (rewrite !length_map; reflexivity).
  cbn [bind]. eexists. split; [ | intros v; reflexivity ].
  rewrite !length_map, zip_with_length, length_map;
    [ reflexivity | rewrite !length_map; reflexivity ].
Qed.

(** X12. Away from [theta == 1] the Gumbel derivative evaluator builds a
    Gumbel instance on its own arguments and calls its [cdf]: an
    exception of [kendalltau] on [(u, v)] leaves the evaluator, and for
    [theta < 1] it raises the domain error of the Gumbel evaluator. *)
Theorem gumbel_du_goes_through_cdf (u v : list F) (theta : F) :
  (theta =? #1) = false ->
  (forall e : exn, kendalltau u v = Raise e -> gumbel_du u v theta = Raise e) /\
  (forall t : F, kendalltau u v = Ok t -> (theta <? #1) = true ->
                 gumbel_du u v theta = Raise (domain_error "gumbel")).
Proof.
  intros Hnz. unfold gumbel_du, init_attributes. rewrite Hnz. split.
  - intros e He. rewrite He. reflexivity.
  - intros t Ht Hlt. rewrite Ht. cbn [bind truthy String.eqb negb].
    cbn [_get_cdf is_name String.eqb Ascii.eqb Bool.eqb bind].
    unfold call_cdf. cbn [cdf]. unfold gumbel_cdf. rewrite Hlt. reflexivity.
Qed.

End DerivativeEvaluators.

Section EmpiricalEdges.

Context {F : Type} {Num : Numeric F}.

(** The grid has a first threshold. *)
Lemma base_first : exists (b : F) (rest : list F), base = b :: rest.
Proof. do 2 eexists. reflexivity. Qed.

(** X13. [compute_empirical] on two sequences whose lengths differ,
    neither being 1, raises numpy's broadcasting [ValueError] at the
    first threshold. *)
Theorem compute_empirical_shape_mismatch (u v : list F) :
  length u <> length v -> length u <> 1%nat -> length v <> 1%nat ->
  compute_empirical u v
  = Raise (ValueError "operands could not be broadcast together").
Proof.
  intros Hne Hu Hv. unfold compute_empirical.
  destruct base_first as (b & rest & ->).
  cbn [empirical_loop]. unfold empirical_step, np_logical_and.
  rewrite np_broadcast_mismatch by (rewrite ?length_map; assumption).
  reflexivity.
Qed.

(** X14. [compute_empirical] on an empty [u] raises [ZeroDivisionError]
    when [v] is empty or has one element: the masks are empty, their sum
    is the integer zero and [N] is zero. *)
Theorem compute_empirical_empty (v : list F) :
  (length v <= 1)%nat ->
  compute_empirical [] v = Raise ZeroDivisionError.
Proof.
  intros Hv. unfold compute_empirical.
  destruct base_first as (b & rest & ->).
  cbn [empirical_loop]. unfold empirical_step, np_logical_and.
  destruct v as [ | y [ | y' v ] ]; [ reflexivity | reflexivity | ].
  cbn [length] in Hv. lia.
Qed.

(** One iteration keeps the state of the loop equal to the profile of the
    thresholds visited, with [z_right] all of them up to its length. *)
Lemma empirical_step_invariant (u v pre : list F) (base_k : F)
    (acc' : profile) :
  length u = length v ->
  upper_thresholds (probability_profile u v pre)
  = firstn (length (upper_thresholds (probability_profile u v pre))) pre ->
  empirical_step u v (length u) (length pre) base_k (probability_profile u v pre)
  = Ok acc' ->
  acc' = probability_profile u v (pre ++ [base_k]) /\
  upper_thresholds acc'
  = firstn (length (upper_thresholds acc')) (pre ++ [base_k]).
Proof.
  intros Hlen Hpre. unfold empirical_step, probability_profile, np_logical_and.
  unfold upper_thresholds, probability_profile in Hpre. cbn [fst snd] in Hpre.
  rewrite !np_broadcast_same_length by (rewrite !length_map; exact Hlen).
  cbn [bind]. unfold fraction.
  destruct (length u =? 0)%nat; [ discriminate | ]. cbn [bind].
  fold (count_below u v base_k). fold (count_above u v base_k).
  fold (P_below u v base_k). fold (P_above u v base_k).
  rewrite !filter_app. cbn [filter].
  set (zr := filter (fun z => #0 <? P_above u v z) pre) in *.
  assert (Hle : (length zr <= length pre)%nat) by apply filter_length_le.
  destruct (#0 <? P_above u v base_k) eqn:Ea.
  - unfold getitem.
    destruct (nth_error (zr ++ [base_k]) (length pre)) as [z | ] eqn:En;
      cbn [bind]; [ | destruct (#0 <? P_below u v base_k); discriminate ].
    assert (Hlt : (length pre < length (zr ++ [base_k]))%nat)
      by (apply nth_error_Some; congruence).
    rewrite length_app in Hlt. cbn [length] in Hlt.
    assert (Hzr : zr = pre).
    { rewrite Hpre. replace (length zr) with (length pre) by lia.
      apply firstn_all. }
    rewrite Hzr in En |- *.
    rewrite nth_error_app2, Nat.sub_diag in En by lia. injection En as <-.
    destruct (#0 <? P_below u v base_k); intros E; injection E as <-;
      unfold upper_thresholds; cbn [fst snd];
      rewrite ?map_app, ?app_nil_r, firstn_all; split; reflexivity.
  - destruct (#0 <? P_below u v base_k); intros E; injection E as <-;
      unfold upper_thresholds; cbn [fst snd];
      rewrite ?map_app, ?app_nil_r;
      (split; [ reflexivity | ]);
      rewrite firstn_app;
      replace (length zr - length pre)%nat with 0%nat by lia;
      cbn [firstn]; rewrite app_nil_r; exact Hpre.
Qed.

Lemma empirical_loop_invariant (u v rest pre : list F) (acc' : profile) :
  length u = length v ->
  upper_thresholds (probability_profile u v pre)
  = firstn (length (upper_thresholds (probability_profile u v pre))) pre ->
  empirical_loop u v (length u) (length pre) rest (probability_profile u v pre)
  = Ok acc' ->
  acc' = probability_profile u v (pre ++ rest) /\
  upper_thresholds acc'
  = firstn (length (upper_thresholds acc')) (pre ++ rest).
Proof.
  intros Hlen. revert pre.
  induction rest as [ | base_k rest IH ]; intros pre Hpre; cbn [empirical_loop].
  - intros E; injection E as <-. rewrite app_nil_r. split; [ reflexivity | exact Hpre ].
  - intros E. apply bind_ok in E as (acc1 & Hstep & E).
    destruct (@empirical_step_invariant u v pre base_k acc1 Hlen Hpre Hstep)
      as [-> Hpre1].
    replace (S (length pre)) with (length (pre ++ [base_k])) in E
      by (rewrite length_app; cbn; lia).
    destruct (IH (pre ++ [base_k]) Hpre1 E) as [-> Hfin].
    rewrite <- app_assoc in Hfin |- *. split; [ reflexivity | exact Hfin ].
Qed.

(** X15. Whatever the numbers are, when [compute_empirical] returns on two
    sequences of equal length, the four lists are aligned: each list of
    thresholds holds, in order, the thresholds of the grid at which the
    empirical probability is positive, each statistic is computed at the
    threshold beside it, and the upper thresholds form an initial segment
    of the grid, which is what the lookup [z_right[k]] requires. *)
Theorem compute_empirical_invariant (u v : list F) (p : profile) :
  length u = length v ->
  compute_empirical u v = Ok p ->
  p = probability_profile u v base /\
  upper_thresholds p = firstn (length (upper_thresholds p)) base.
Proof.
  intros Hlen E. unfold compute_empirical in E.
  exact (@empirical_loop_invariant u v base [] p Hlen eq_refl E).
Qed.

End EmpiricalEdges.

(** ** Concrete runs of the further properties *)

Lemma unsupported_family_raises_witness :
  let U := [0.1; 0.2; 0.3; 0.4]%float in
  let V := [0.5; 0.6; 0.5; 0.8]%float in
  kendalltau U V = Ok 0.54772255750516619%float /\
  __init__ U V None (Some "gaussian"%string) false
  = Raise (Exception_ "Unsupported distribution: gaussian").
Proof.
  intros U V.
  assert (Ht : kendalltau U V = Ok 0.54772255750516619%float)
    by (vm_compute; reflexivity).
  split; [ exact Ht | ].
  refine (@unsupported_family_raises float _ _ _ U V None "gaussian" false _ _ _ Ht).
  - discriminate.
  - cbn. intros [E | [E | [E | []]]]; discriminate.
Defined.

Lemma constructor_without_family_witness :
  let U := [0.1; 0.2; 0.3; 0.4]%float in
  let V := [0.5; 0.6; 0.5; 0.8]%float in
  (exists c : Copula,
      __init__ U V (Some 3%float) None false = Ok c /\
      c.(theta) = Some 3%float /\ c.(tau) = 0.54772255750516619%float /\
      c.(cdf) = None /\ c.(derivative) = None) /\
  __init__ U V (Some 3%float) None true
  = Raise (Exception_ "Unsupported distribution: None").
Proof.
  intros U V.
  assert (Ht : kendalltau U V = Ok 0.54772255750516619%float)
    by (vm_compute; reflexivity).
  exact (@constructor_without_family float _ _ _ U V (Some 3%float) None _
           eq_refl Ht).
Defined.

Lemma kendalltau_error_propagates_witness :
  let e := ValueError "All inputs to kendalltau must be of the same size" in
  kendalltau [0.1]%float [0.1; 0.2]%float = Raise e /\
  (forall (th : option float) (cname : option string) (dev : bool),
      __init__ [0.1]%float [0.1; 0.2]%float th cname dev = Raise e) /\
  select_copula [0.1]%float [0.1; 0.2]%float = Raise e.
Proof.
  intros e.
  assert (Ht : kendalltau [0.1]%float [0.1; 0.2]%float = Raise e)
    by (vm_compute; reflexivity).
  split; [ exact Ht | ].
  exact (@kendalltau_error_propagates float _ _ _ _ _ e Ht).
Defined.

Lemma derivative_on_request_witness :
  let U := [0.1; 0.2; 0.3; 0.4]%float in
  let V := [0.5; 0.6; 0.5; 0.8]%float in
  exists c : Copula,
    __init__ U V None (Some "frank"%string) false = Ok c /\
    c.(derivative) = None /\
    _get_du (Some "frank"%string) = Ok (du_of "frank") /\
    __init__ U V None (Some "frank"%string) true
    = Ok (set_derivative c (du_of "frank")).
Proof.
  intros U V.
  assert (Ht : kendalltau U V = Ok 0.54772255750516619%float)
    by (vm_compute; reflexivity).
  refine (@derivative_on_request float _ _ _ U V None "frank" _ _ Ht).
  cbn. tauto.
Defined.

Lemma cdf_returns_one_value_per_pair_witness :
  let U := [0.5; 0.6]%float in
  let V := [0.5; 0.7]%float in
  let r := [0.37796447300922725; 0.5117386877700083]%float in
  evaluator_of "clayton" U V 2%float = Ok r /\ length r = length U.
Proof.
  intros U V r.
  assert (Hr : evaluator_of "clayton" U V 2%float = Ok r)
    by (vm_compute; reflexivity).
  split; [ exact Hr | ].
  refine (@cdf_returns_one_value_per_pair float _ _ "clayton" U V 2%float r
            _ eq_refl Hr).
  cbn. tauto.
Defined.

Lemma clayton_cdf_is_clamped_witness :
  let r := [0.37796447300922725; 0.5117386877700083]%float in
  clayton_cdf [0.5; 0.6]%float [0.5; 0.7]%float 2%float = Ok r /\
  Forall (fun x : float => (x <? #0) = false) r.
Proof.
  intros r.
  assert (Hr : clayton_cdf [0.5; 0.6]%float [0.5; 0.7]%float 2%float = Ok r)
    by (vm_compute; reflexivity).
  split; [ exact Hr | ].
  exact (@clayton_cdf_is_clamped float _ _ binary64_literals _ _ 2%float r
           eq_refl Hr).
Defined.

(** No entry of [U] is positive, [V] is empty. *)
Lemma zero_guard_skips_formula_witness :
  clayton_cdf [0; 0]%float [] 2%float = Ok [0; 0]%float /\
  gumbel_cdf [0; 0]%float [] 2%float = Ok [0; 0]%float.
Proof.
  pose proof (@zero_guard_skips_formula float _ _ binary64_literals
                [0; 0]%float [] 2%float) as [Hc Hg].
  split.
  - apply Hc; [ reflexivity | reflexivity | repeat constructor ].
  - apply Hg; [ reflexivity | reflexivity | repeat constructor ].
Defined.

Lemma short_V_raises_index_error_witness :
  clayton_cdf [0.5; 0.6]%float [0.5]%float 2%float = Raise IndexError /\
  gumbel_cdf [0.5; 0.6]%float [0.5]%float 2%float = Raise IndexError.
Proof.
  pose proof (@short_V_raises_index_error float _ _
                [0.5; 0.6]%float [0.5]%float 2%float (le_n 2)) as [Hc Hg].
  split.
  - apply Hc; [ reflexivity | reflexivity | repeat constructor ].
  - apply Hg; [ reflexivity | reflexivity | repeat constructor ].
Defined.

Lemma frank_cdf_shape_mismatch_witness :
  frank_cdf [0.1; 0.2; 0.3]%float [0.1; 0.2]%float 2%float
  = Raise (ValueError "operands could not be broadcast together").
Proof.
  apply (@frank_cdf_shape_mismatch float _ _); [ reflexivity | | | ];
    cbn; discriminate.
Defined.

(** The sequences need not have the same length. *)
Lemma du_at_independence_returns_v_witness :
  _get_du (Some "gumbel"%string) = Ok (du_of "gumbel") /\
  du_of "gumbel" [0.3; 0.4]%float [0.5]%float (lower_bound "gumbel")
  = Ok [0.5]%float.
Proof.
  apply (@du_at_independence_returns_v float _ _ _ binary64_literals).
  cbn. tauto.
Defined.

Lemma clayton_du_ignores_v_witness :
  exists r : list float,
    length r = length [0.5; 0.6]%float /\
    forall v : list float, clayton_du [0.5; 0.6]%float v 2%float = Ok r.
Proof.
  apply (@clayton_du_ignores_v float _ _). reflexivity.
Defined.

(** Kendall's tau of the two observations is -1, and [theta = 0.5] is
    below Gumbel's bound. *)
Lemma gumbel_du_goes_through_cdf_witness :
  kendalltau [0.1; 0.2]%float [0.2; 0.1]%float = Ok (-1)%float /\
  gumbel_du [0.1; 0.2]%float [0.2; 0.1]%float 0.5%float
  = Raise (domain_error "gumbel").
Proof.
  assert (Ht : kendalltau [0.1; 0.2]%float [0.2; 0.1]%float = Ok (-1)%float)
    by (vm_compute; reflexivity).
  split; [ exact Ht | ].
  exact (proj2 (@gumbel_du_goes_through_cdf float _ _ _
                  [0.1; 0.2]%float [0.2; 0.1]%float 0.5%float eq_refl)
               _ Ht eq_refl).
Defined.

Lemma compute_empirical_shape_mismatch_witness :
  compute_empirical [0.1; 0.2; 0.3]%float [0.1; 0.2]%float
  = Raise (ValueError "operands could not be broadcast together").
Proof.
  apply (@compute_empirical_shape_mismatch float _); cbn; discriminate.
Defined.

Lemma compute_empirical_empty_witness :
  compute_empirical (F := float) [] [] = Raise ZeroDivisionError /\
  compute_empirical [] [0.5]%float = Raise ZeroDivisionError.
Proof.
  split.
  - exact (@compute_empirical_empty float _ [] (le_0_n 1)).
  - exact (@compute_empirical_empty float _ [0.5]%float (le_n 1)).
Defined.

Lemma compute_empirical_invariant_witness :
  let U := [0.1; 0.2; 0.3; 0.4]%float in
  let V := [0.2; 0.15; 0.3; 0.5]%float in
  let p := empirical_spec U V in
  compute_empirical U V = Ok p /\
  p = probability_profile U V base /\
  upper_thresholds p = firstn (length (upper_thresholds p)) base.
Proof.
  intros U V p.
  assert (Hp : compute_empirical U V = Ok p) by (vm_compute; reflexivity).
  split; [ exact Hp | ].
  exact (@compute_empirical_invariant float _ U V p eq_refl Hp).
Defined.
